(** * Arestor: the record model and its Redis connector

    A shallow embedding of [arestor/common/model.py] and
    [arestor/common/connector.py].  Python objects that are mutated in
    place become explicit states threaded through a state-and-exception
    monad; Python dictionaries keep their insertion order and are
    association lists with unique keys; the Redis server is a pair of
    finite maps (hashes and sets). *)

From Stdlib Require Import String Ascii List ZArith.
From stdpp Require Import gmap strings pretty.
Import ListNotations.
Open Scope string_scope.

(** ** Python runtime *)

Module Py.

(** A message is kept as its format string and its arguments. *)
Inductive message := Msg (fmt : string) (args : list string).

(** The exception classes the two modules can raise or let through. *)
Inductive exn :=
| TypeError (m : message)
| AttributeError (type_name attribute : string)
| NameError (name : string)
| UnboundLocalError (name : string)
| IndexError (m : message)
| ArestorException (m : message)
| DataProcessingError (m : message)
| NotFound (m : message)
| RedisError
| ConnectionError.

Inductive result (A : Type) :=
| Ok (a : A)
| Raise (e : exn).
Arguments Ok {A} a.
Arguments Raise {A} e.

(** Computations over a mutable object of type [S]: the state is
    returned also when an exception is raised, since the mutations made
    before the [raise] are kept. *)
Definition M (S A : Type) : Type := S -> result A * S.

Definition ret {S A} (a : A) : M S A := fun s => (Ok a, s).
Definition raise {S A} (e : exn) : M S A := fun s => (Raise e, s).
Definition bind {S A B} (m : M S A) (k : A -> M S B) : M S B :=
  fun s => match m s with
           | (Ok a, s') => k a s'
           | (Raise e, s') => (Raise e, s')
           end.
Definition get_state {S} : M S S := fun s => (Ok s, s).
Definition put_state {S} (s : S) : M S unit := fun _ => (Ok tt, s).
Definition modify {S} (f : S -> S) : M S unit := fun s => (Ok tt, f s).

(** A computation on one component of a pair of objects. *)
Definition on_fst {S1 S2 A} (m : M S1 A) : M (S1 * S2) A :=
  fun s => let (r, s1) := m (fst s) in (r, (s1, snd s)).
Definition on_snd {S1 S2 A} (m : M S2 A) : M (S1 * S2) A :=
  fun s => let (r, s2) := m (snd s) in (r, (fst s, s2)).

(** [try: m except e: h e] *)
Definition try_except {S A} (m : M S A) (h : exn -> option (M S A)) : M S A :=
  fun s => match m s with
           | (Ok a, s') => (Ok a, s')
           | (Raise e, s') => match h e with
                              | Some k => k s'
                              | None => (Raise e, s')
                              end
           end.

(** [for x in l: body x] *)
Fixpoint for_each {S A} (l : list A) (body : A -> M S unit) : M S unit :=
  match l with
  | [] => ret tt
  | x :: l' => bind (body x) (fun _ => for_each l' body)
  end.

(** Values that fields and stored documents hold. *)
#[warnings="-register-all"] Inductive value :=
| VNone
| VBool (b : bool)
| VInt (n : Z)
| VStr (s : string)
| VList (l : list value)
| VDict (d : list (string * value)).

Inductive pytype := TNoneType | TBool | TInt | TStr | TList | TDict | TObject.

Definition type_name (v : value) : string :=
  match v with
  | VNone => "NoneType"
  | VBool _ => "bool"
  | VInt _ => "int"
  | VStr _ => "str"
  | VList _ => "list"
  | VDict _ => "dict"
  end.

Definition repr_type (t : pytype) : string :=
  match t with
  | TNoneType => "<class 'NoneType'>"
  | TBool => "<class 'bool'>"
  | TInt => "<class 'int'>"
  | TStr => "<class 'str'>"
  | TList => "<class 'list'>"
  | TDict => "<class 'dict'>"
  | TObject => "<class 'object'>"
  end.

(** [isinstance(v, t)]; [bool] is a subclass of [int]. *)
Definition isinstance (v : value) (t : pytype) : bool :=
  match t, v with
  | TObject, _ => true
  | TNoneType, VNone => true
  | TBool, VBool _ => true
  | TInt, VInt _ => true
  | TInt, VBool _ => true
  | TStr, VStr _ => true
  | TList, VList _ => true
  | TDict, VDict _ => true
  | _, _ => false
  end.

(** Truth value of an object in a condition. *)
Definition truthy (v : value) : bool :=
  match v with
  | VNone => false
  | VBool b => b
  | VInt n => negb (Z.eqb n 0)
  | VStr s => negb (String.eqb s "")
  | VList l => match l with [] => false | _ => true end
  | VDict d => match d with [] => false | _ => true end
  end.

Definition is_None (v : value) : bool :=
  match v with VNone => true | _ => false end.

(** *** Dictionaries: insertion ordered, one entry per key *)

Definition pydict (V : Type) : Type := list (string * V).

Section Dict.
Context {V : Type}.

Fixpoint dict_get (k : string) (d : pydict V) : option V :=
  match d with
  | [] => None
  | (k', v) :: d' => if String.eqb k k' then Some v else dict_get k d'
  end.

Definition dict_contains (k : string) (d : pydict V) : bool :=
  match dict_get k d with Some _ => true | None => false end.

(** [d[k] = v]: an existing key keeps its position. *)
Fixpoint dict_set (k : string) (v : V) (d : pydict V) : pydict V :=
  match d with
  | [] => [(k, v)]
  | (k', v') :: d' =>
      if String.eqb k k' then (k, v) :: d' else (k', v') :: dict_set k v d'
  end.

(** [d.pop(k, None)]: the dictionary without [k]. *)
Fixpoint dict_remove (k : string) (d : pydict V) : pydict V :=
  match d with
  | [] => []
  | (k', v') :: d' =>
      if String.eqb k k' then d' else (k', v') :: dict_remove k d'
  end.

(** [d.update(other)] *)
Definition dict_update (d other : pydict V) : pydict V :=
  fold_left (fun acc kv => dict_set (fst kv) (snd kv) acc) other d.

Definition dict_keys (d : pydict V) : list string := map fst d.
Definition dict_values (d : pydict V) : list V := map snd d.
End Dict.

(** [d.get(k)] on a dictionary of values: a missing key reads [None]. *)
Definition dict_get_default (k : string) (d : pydict value) : value :=
  match dict_get k d with Some v => v | None => VNone end.

(** [s.split(sep)] for a one-character separator. *)
Fixpoint split (sep : ascii) (s : string) : list string :=
  match s with
  | EmptyString => [EmptyString]
  | String c s' =>
      if Ascii.eqb c sep then EmptyString :: split sep s'
      else match split sep s' with
           | [] => [String c EmptyString]
           | h :: t => String c h :: t
           end
  end.

(** [sep.join(l)] *)
Definition join (sep : string) (l : list string) : string := String.concat sep l.

(** [c in s] for a character. *)
Fixpoint contains_char (c : ascii) (s : string) : bool :=
  match s with
  | EmptyString => false
  | String c' s' => Ascii.eqb c c' || contains_char c s'
  end.

End Py.

Declare Scope py_scope.
Delimit Scope py_scope with py.
Notation "x <- m ;; k" := (Py.bind m (fun x => k))
  (at level 100, m at next level, right associativity) : py_scope.
Notation "m ;;; k" := (Py.bind m (fun _ => k))
  (at level 100, right associativity) : py_scope.

(** ** model.py *)

Module model.
Import Py.
Local Open Scope py_scope.

(** A field's [default] is any object: a plain value ([None] when the
    field has no default) or a zero-argument callable.  A callable is
    given the number of factory calls made so far, which stands for the
    hidden state ([uuid.uuid1()] reads the clock) its result depends on;
    like any call it returns a value or raises. *)
Inductive default_object :=
| Plain (v : value)
| Callable (f : nat -> result value).

Record Field := {
  name : string;
  key : string;
  field_type : pytype;
  default : default_object;
  is_required : bool;
  is_read_only : bool
}.

(** [Field(name, key)] with the constructor's keyword defaults. *)
Definition Field_ (n k : string) : Field :=
  {| name := n; key := k; field_type := TStr; default := Plain VNone;
     is_required := false; is_read_only := false |}.

(** [default is not None] *)
Definition has_default (d : default_object) : bool :=
  match d with Plain VNone => false | _ => true end.

(** [six.callable(default)] *)
Definition callable (d : default_object) : bool :=
  match d with Callable _ => true | Plain _ => false end.

Record _ModelOptions := {
  _name : string;
  _fields : pydict Field;
  _defaults : pydict value;
  _default_callables : pydict (nat -> result value)
}.

Definition remove_field (field_name : string) (o : _ModelOptions) : _ModelOptions :=
  match dict_get field_name (_fields o) with
  | None => o
  | Some field =>
      let fields' := dict_remove field_name (_fields o) in
      if has_default (default field) then
        if callable (default field) then
          {| _name := _name o; _fields := fields'; _defaults := _defaults o;
             _default_callables := dict_remove (name field) (_default_callables o) |}
        else
          {| _name := _name o; _fields := fields';
             _defaults := dict_remove (name field) (_defaults o);
             _default_callables := _default_callables o |}
      else
        {| _name := _name o; _fields := fields'; _defaults := _defaults o;
           _default_callables := _default_callables o |}
  end.

Definition add_field (field : Field) (o : _ModelOptions) : _ModelOptions :=
  let o := remove_field (name field) o in
  let fields' := dict_set (name field) field (_fields o) in
  match default field with
  | Plain VNone =>
      {| _name := _name o; _fields := fields'; _defaults := _defaults o;
         _default_callables := _default_callables o |}
  | Callable f =>
      {| _name := _name o; _fields := fields'; _defaults := _defaults o;
         _default_callables := dict_set (key field) f (_default_callables o) |}
  | Plain v =>
      {| _name := _name o; _fields := fields';
         _defaults := dict_set (key field) v (_defaults o);
         _default_callables := _default_callables o |}
  end.

(** The call [default()]: the state is the count of factory calls. *)
Definition call_default (f : nat -> result value) : M nat value :=
  fun tick => (f tick, S tick).

(** [get_defaults]: an exception of a factory leaves the loop, and the
    factories after it are not called. *)
Fixpoint call_defaults (cs : pydict (nat -> result value)) (defaults : pydict value)
  : M nat (pydict value) :=
  match cs with
  | [] => ret defaults
  | (field_name, default) :: cs' =>
      v <- call_default default ;;
      call_defaults cs' (dict_set field_name v defaults)
  end.

Definition get_defaults (o : _ModelOptions) : M nat (pydict value) :=
  call_defaults (_default_callables o) (_defaults o).

(** Binding the keyword arguments of a call [function(..., **fields)]
    whose parameters [parameters] have their values already: a keyword
    with the name of one of them would give it a second value, and the
    call raises before the body runs.  The keywords are taken in the
    order of [fields]. *)
Definition bind_keywords {S} (function : string) (parameters : list string)
           (fields : pydict value) : M S unit :=
  match find (fun k => existsb (String.eqb k) parameters) (dict_keys fields) with
  | Some k =>
      raise (TypeError (Msg "%s() got multiple values for argument %r" [function; k]))
  | None => ret tt
  end.

(** *** The metaclass *)

(** A model class: its name, the field descriptors among its attributes
    (by attribute name) and the options object injected as [_meta]. *)
Record model_class := {
  cls_name : string;
  descriptors : pydict Field;
  _meta : _ModelOptions
}.

Definition starts_with_underscore (s : string) : bool :=
  match s with
  | String c _ => Ascii.eqb c "_"%char
  | EmptyString => false
  end.

(** The fields of the bases are copied into [attrs] unless overridden. *)
Definition inherit_base (attrs : pydict Field) (base : model_class) : pydict Field :=
  fold_left (fun attrs kd =>
               if dict_contains (fst kd) attrs then attrs
               else dict_set (fst kd) (snd kd) attrs)
            (descriptors base) attrs.

Definition register (cls : model_class) (attr : string * Field) : model_class :=
  if starts_with_underscore (fst attr) then cls
  else {| cls_name := cls_name cls;
          descriptors := dict_set (name (snd attr)) (snd attr) (descriptors cls);
          _meta := add_field (snd attr) (_meta cls) |}.

(** [_BaseModel.__new__(mcs, name, bases, attrs)], [attrs] restricted to
    the attributes that are [Field] objects. *)
Definition __new__ (name : string) (bases : list model_class) (attrs : pydict Field)
  : model_class :=
  let attrs := fold_left inherit_base bases attrs in
  fold_left register attrs
    {| cls_name := name; descriptors := [];
       _meta := {| _name := name; _fields := []; _defaults := [];
                   _default_callables := [] |} |}.

(** *** BaseModel *)

Module BaseModel.

(** The instance attributes. *)
Record t := {
  _data : pydict value;
  _changes : pydict value;
  _cache : pydict value;
  _provision_done : bool
}.

Definition cls : model_class := __new__ "BaseModel" [] [].

(** [_FieldDescriptor.__get__] on an instance. *)
Definition __get__ (field : Field) (instance : t) : value :=
  dict_get_default (key field) (_data instance).

(** [_FieldDescriptor.__set__] *)
Definition __set__ (field : Field) (v : value) : M t unit :=
  fun instance =>
    if negb (isinstance v (field_type field)) then
      raise (TypeError (Msg "Invalid type of value (should be %r)"
                            [repr_type (field_type field)])) instance
    else if _provision_done instance && is_read_only field then
      raise (TypeError (Msg "%r does not support item assignment"
                            [name field])) instance
    else
      (Ok tt,
       {| _data := dict_set (key field) v (_data instance);
          _changes := dict_set (key field) v (_changes instance);
          _cache := _cache instance;
          _provision_done := _provision_done instance |}).

(** [_unpack] on plain values; the loops rebuild the containers. *)
Fixpoint _unpack (v : value) : value :=
  match v with
  | VList l =>
      VList ((fix loop (items : list value) (container_list : list value) :=
                match items with
                | [] => container_list
                | item :: rest => loop rest (container_list ++ [_unpack item])%list
                end) l [])
  | VDict d =>
      VDict ((fix loop (items : list (string * value)) (container_dict : pydict value) :=
                match items with
                | [] => container_dict
                | (k, item) :: rest =>
                    loop rest (dict_set k (_unpack item) container_dict)
                end) d [])
  | _ => v
  end.

(** The loop of [_set_fields]; [setattr(self, field.name, value)]
    reaches the descriptor the metaclass stored under [field.name],
    which wraps this very field. *)
Fixpoint _set_fields_loop (fs : list Field) (fields : pydict value)
  : M t (pydict value) :=
  match fs with
  | [] => ret fields
  | field :: fs' =>
      let v := dict_get_default (name field) fields in
      let fields' := dict_remove (name field) fields in
      self <- get_state ;;
      (if negb (dict_contains (key field) (_data self)) || truthy v
       then __set__ field v else ret tt) ;;;
      _set_fields_loop fs' fields'
  end.

Definition _set_fields (meta : _ModelOptions) (fields : pydict value) : M t unit :=
  _set_fields_loop (dict_values (_fields meta)) fields ;;; ret tt.

(** [BaseModel.__init__(self, **fields)] called with the keyword
    arguments [fields]: the state is the count of factory calls; the new
    instance is the result. *)
Definition __init__ (meta : _ModelOptions) (fields : pydict value) : M nat t :=
  bind_keywords "__init__" ["self"] fields ;;;
  defaults <- get_defaults meta ;;
  let self := {| _data := defaults; _changes := []; _cache := [];
                 _provision_done := false |} in
  match _set_fields meta fields self with
  | (Ok _, self') =>
      ret {| _data := _data self'; _changes := _changes self';
             _cache := _cache self'; _provision_done := true |}
  | (Raise e, _) => raise e
  end.

(** [process_raw_data] *)
Fixpoint process_raw_data_loop (fs : pydict Field) (raw_data content : pydict value)
  : pydict value :=
  match fs with
  | [] => content
  | (field_name, field) :: fs' =>
      let v := dict_get_default (key field) raw_data in
      process_raw_data_loop fs' (dict_remove (key field) raw_data)
                            (dict_set field_name v content)
  end.

Definition process_raw_data (meta : _ModelOptions) (raw_data : pydict value)
  : pydict value :=
  process_raw_data_loop (_fields meta) raw_data [].

Definition from_raw_data (meta : _ModelOptions) (raw_data : pydict value) : M nat t :=
  __init__ meta (process_raw_data meta raw_data).

Definition provision_done (self : t) : bool := _provision_done self.

(** [validate] *)
Definition validate (meta : _ModelOptions) : M t unit :=
  for_each (_fields meta)
    (fun item =>
       self <- get_state ;;
       if is_required (snd item) && is_None (dict_get_default (name (snd item)) (_data self))
       then raise (DataProcessingError
                     (Msg "The required field %(field)r is missing." [fst item]))
       else ret tt).

(** [update] *)
Definition update (meta : _ModelOptions) (fields : pydict value) : M t unit :=
  if negb (truthy (VDict fields)) then ret tt
  else
    for_each (_fields meta)
      (fun item =>
         match dict_get (fst item) fields with
         | Some v =>
             modify (fun self =>
                       {| _data := _data self;
                          _changes := dict_set (key (snd item)) v (_changes self);
                          _cache := _cache self;
                          _provision_done := _provision_done self |})
         | None => ret tt
         end) ;;;
    modify (fun self =>
              {| _data := dict_update (_data self) (_changes self);
                 _changes := _changes self;
                 _cache := _cache self;
                 _provision_done := _provision_done self |}).

(** [commit] *)
Definition commit : M t unit :=
  modify (fun self =>
            {| _data := dict_update (_data self) (_changes self);
               _changes := _changes self;
               _cache := _cache self;
               _provision_done := _provision_done self |}) ;;;
  modify (fun self =>
            {| _data := _data self;
               _changes := [];
               _cache := _cache self;
               _provision_done := _provision_done self |}).

(** [dump] *)
Definition dump_step (include_read_only : bool) (self : t)
           (content : pydict value) (field : Field) : pydict value :=
  if is_read_only field && negb include_read_only then content
  else
    let v := _unpack (dict_get_default (key field) (_data self)) in
    if negb (is_required field) && is_None v then content
    else dict_set (key field) v content.

Definition dump (meta : _ModelOptions) (include_read_only : bool) (self : t)
  : pydict value :=
  fold_left (dump_step include_read_only self) (dict_values (_fields meta)) [].

End BaseModel.

(** A model object as other modules receive it: its class and its
    instance attributes. *)
Record model_object := {
  class_of : model_class;
  state_of : BaseModel.t
}.

(** [getattr(model, attribute)] for an attribute that is a field. *)
Definition getattr_field {S} (model : model_object) (attribute : string) : M S value :=
  match dict_get attribute (descriptors (class_of model)) with
  | Some field => ret (BaseModel.__get__ field (state_of model))
  | None => raise (AttributeError (cls_name (class_of model)) attribute)
  end.

(** The calls [ArestorModel] makes on its connector, with the
    arguments in the order it passes them; [C] is the connector object
    together with what it is connected to. *)
Class Connector (C : Type) := {
  connector_set : model_object -> string -> M C unit;
  connector_get : string -> string -> M C (pydict value);
  connector_get_all : string -> M C (list (pydict value));
  connector_remove : string -> string -> M C unit
}.

(** *** ArestorModel *)

Module ArestorModel.

Definition resource_id (uuid1 : nat -> string) : Field :=
  {| name := "resource_id"; key := "resource_id"; field_type := TStr;
     default := Callable (fun tick => Ok (VStr (uuid1 tick)));
     is_required := false; is_read_only := false |}.

Definition cls (uuid1 : nat -> string) : model_class :=
  __new__ "ArestorModel" [BaseModel.cls] [("resource_id", resource_id uuid1)].

Section WithConnector.
Context {C : Type} `{Connector C}.

(** [__init__(self, connector, **fields)] called with a connector and
    the keyword arguments [fields]: the connector is kept by reference,
    so the instance is the [BaseModel] state. *)
Definition __init__ (c : model_class) (fields : pydict value) : M nat BaseModel.t :=
  bind_keywords "__init__" ["self"; "connector"] fields ;;;
  BaseModel.__init__ (_meta c) fields.

(** [commit]: the state is the connector and the instance. *)
Definition commit (c : model_class) : M (C * BaseModel.t) unit :=
  self <- on_snd get_state ;;
  on_fst (connector_set {| class_of := c; state_of := self |} (cls_name c)) ;;;
  on_snd BaseModel.commit.

(** [get(cls, connector, resource_id)] with a truthy [resource_id];
    the state is the connector and the count of factory calls. *)
Definition get_one (c : model_class) (resource_id : string)
  : M (C * nat) BaseModel.t :=
  resource <- on_fst (connector_get (cls_name c) resource_id) ;;
  let content := BaseModel.process_raw_data (_meta c) resource in
  on_snd (__init__ c content).

Fixpoint build_all (c : model_class) (resources : list (pydict value))
         (acc : list BaseModel.t) : M (C * nat) (list BaseModel.t) :=
  match resources with
  | [] => ret acc
  | resource :: rest =>
      let content := BaseModel.process_raw_data (_meta c) resource in
      r <- on_snd (__init__ c content) ;;
      build_all c rest (acc ++ [r])%list
  end.

(** [get(cls, connector)] without a [resource_id]. *)
Definition get_every (c : model_class) : M (C * nat) (list BaseModel.t) :=
  resources <- on_fst (connector_get_all (cls_name c)) ;;
  build_all c resources [].

Definition remove (c : model_class) (resource_id : string) : M C unit :=
  connector_remove (cls_name c) resource_id.
End WithConnector.

End ArestorModel.

End model.

(** ** connector.py *)

Module connector.
Import Py model.
Local Open Scope py_scope.

(** The names bound at module level: the imports, the two constants
    and the two classes. *)
Definition module_globals : list string :=
  ["abc"; "logging"; "redis"; "six"; "exception"; "arestor_config";
   "CONFIG"; "LOG"; "_Connector"; "RedisConnector"].

Definition load_global {S} (name : string) : M S unit :=
  if existsb (String.eqb name) module_globals then ret tt
  else raise (NameError name).

(** The settings read from [arestor.config]. *)
Record Config := {
  retry_count : nat;
  redis_host : string;
  redis_port : Z;
  redis_database : Z
}.

(** The data a Redis server holds: hashes and sets, by name. *)
Record redis_data := {
  hashes : gmap string (gmap string string);
  sets : gmap string (gset string)
}.

Definition empty_data : redis_data := {| hashes := ∅; sets := ∅ |}.

(** A [redis.StrictRedis] client object. *)
Record StrictRedis := {
  client_host : string;
  client_port : Z;
  client_db : Z
}.

(** What a command gives back.  The client is created without
    [decode_responses], so what it reads from the server comes as
    [bytes]: the value of a hash field, the members of a set.  [RStr] is
    the [str] a decoding client would give. *)
Inductive reply :=
| RNone
| RBool (b : bool)
| RInt (n : Z)
| RBytes (s : string)
| RStr (s : string)
| RSet (s : gset string).

(** A [str] or a [bytes] object, by the bytes it encodes to. *)
Inductive text :=
| Str (s : string)
| Bytes (s : string).

Coercion Str : string >-> text.

(** The bytes the client sends for an argument. *)
Definition encoded (x : text) : string :=
  match x with Str s | Bytes s => s end.

(** [repr] of a [bytes] object. *)
Definition quote_char : ascii := "'"%char.
Definition double_quote_char : ascii := ascii_of_nat 34.
Definition backslash_char : ascii := ascii_of_nat 92.

Definition hex_digit (n : nat) : ascii :=
  nth n (list_ascii_of_string "0123456789abcdef") "0"%char.

Definition escape_byte (quote c : ascii) : string :=
  let n := nat_of_ascii c in
  if Ascii.eqb c quote || Ascii.eqb c backslash_char then
    String backslash_char (String c "")
  else if Nat.eqb n 9 then String backslash_char "t"
  else if Nat.eqb n 10 then String backslash_char "n"
  else if Nat.eqb n 13 then String backslash_char "r"
  else if Nat.ltb n 32 || Nat.leb 127 n then
    String backslash_char
      (String "x" (String (hex_digit (Nat.div n 16))
                          (String (hex_digit (Nat.modulo n 16)) "")))
  else String c "".

Fixpoint escape_bytes (quote : ascii) (s : string) : string :=
  match s with
  | EmptyString => ""
  | String c rest => escape_byte quote c ++ escape_bytes quote rest
  end.

Definition bytes_repr (s : string) : string :=
  let quote :=
    if contains_char quote_char s && negb (contains_char double_quote_char s)
    then double_quote_char else quote_char in
  String "b" (String quote (escape_bytes quote s ++ String quote "")).

(** [str.format] on an argument: a [str] as it is, [bytes] by their [repr]. *)
Definition formatted (x : text) : string :=
  match x with
  | Str s => s
  | Bytes s => bytes_repr s
  end.

Module RedisConnector.

(** The connector's attributes, followed by the server it talks to:
    the data held and, for each round trip in turn, whether the
    server can be reached. *)
Record t := {
  _host : string;
  _port : Z;
  _db : Z;
  _model_cache : pydict value;
  _connection : option StrictRedis;
  server : redis_data;
  reachable : nat -> bool;
  round_trips : nat
}.

Definition set_connection (c : option StrictRedis) (self : t) : t :=
  {| _host := _host self; _port := _port self; _db := _db self;
     _model_cache := _model_cache self; _connection := c;
     server := server self; reachable := reachable self;
     round_trips := round_trips self |}.

Definition set_server (d : redis_data) (self : t) : t :=
  {| _host := _host self; _port := _port self; _db := _db self;
     _model_cache := _model_cache self; _connection := _connection self;
     server := d; reachable := reachable self;
     round_trips := round_trips self |}.

Definition counted (self : t) : t :=
  {| _host := _host self; _port := _port self; _db := _db self;
     _model_cache := _model_cache self; _connection := _connection self;
     server := server self; reachable := reachable self;
     round_trips := S (round_trips self) |}.

(** One command sent to the server: [ConnectionError] when the
    server cannot be reached. *)
Definition round_trip : M t unit :=
  fun self =>
    if reachable self (round_trips self) then (Ok tt, counted self)
    else (Raise ConnectionError, counted self).

(** The client object [_connect] creates. *)
Definition new_client (self : t) : StrictRedis :=
  {| client_host := _host self; client_port := _port self; client_db := _db self |}.

Definition hash_of (name : string) (d : redis_data) : gmap string string :=
  match hashes d !! name with Some h => h | None => ∅ end.

Definition set_of (name : string) (d : redis_data) : gset string :=
  match sets d !! name with Some s => s | None => ∅ end.

Definition arity_error {A} (method : string) : M t A :=
  raise (TypeError (Msg "%s() got an unexpected number of arguments" [method])).

(** A method call on [self._connection]: the commands of the client that
    the module uses. *)
Definition call_connection (method : string) (args : list string) : M t reply :=
  self <- get_state ;;
  match _connection self with
  | None => raise (AttributeError "NoneType" method)
  | Some _ =>
      if String.eqb method "ping" then
        match args with
        | [] => round_trip ;;; ret (RBool true)
        | _ => arity_error method
        end
      else if String.eqb method "hset" then
        match args with
        | [name; k; v] =>
            round_trip ;;;
            self <- get_state ;;
            let d := server self in
            let h := hash_of name d in
            put_state (set_server {| hashes := <[name := <[k := v]> h]> (hashes d);
                                     sets := sets d |} self) ;;;
            ret (RInt (match h !! k with Some _ => 0 | None => 1 end))
        | _ => arity_error method
        end
      else if String.eqb method "hget" then
        match args with
        | [name; k] =>
            round_trip ;;;
            self <- get_state ;;
            ret (match hash_of name (server self) !! k with
                 | Some v => RBytes v
                 | None => RNone
                 end)
        | _ => arity_error method
        end
      else if String.eqb method "hdel" then
        match args with
        | [name; k] =>
            round_trip ;;;
            self <- get_state ;;
            let d := server self in
            let h := hash_of name d in
            put_state (set_server {| hashes := <[name := delete k h]> (hashes d);
                                     sets := sets d |} self) ;;;
            ret (RInt (match h !! k with Some _ => 1 | None => 0 end))
        | _ => arity_error method
        end
      else if String.eqb method "sadd" then
        match args with
        | [name; x] =>
            round_trip ;;;
            self <- get_state ;;
            let d := server self in
            let s := set_of name d in
            put_state (set_server {| hashes := hashes d;
                                     sets := <[name := {[x]} ∪ s]> (sets d) |} self) ;;;
            ret (RInt (if bool_decide (x ∈ s) then 0 else 1))
        | _ => arity_error method
        end
      else if String.eqb method "srem" then
        match args with
        | [name; x] =>
            round_trip ;;;
            self <- get_state ;;
            let d := server self in
            let s := set_of name d in
            put_state (set_server {| hashes := hashes d;
                                     sets := <[name := s ∖ {[x]}]> (sets d) |} self) ;;;
            ret (RInt (if bool_decide (x ∈ s) then 1 else 0))
        | _ => arity_error method
        end
      else if String.eqb method "sismember" then
        match args with
        | [name; x] =>
            round_trip ;;;
            self <- get_state ;;
            ret (RBool (bool_decide (x ∈ set_of name (server self))))
        | _ => arity_error method
        end
      else if String.eqb method "smembers" then
        match args with
        | [name] =>
            round_trip ;;;
            self <- get_state ;;
            ret (RSet (set_of name (server self)))
        | _ => arity_error method
        end
      else raise (AttributeError "StrictRedis" method)
  end.

Definition reply_truthy (r : reply) : bool :=
  match r with
  | RNone => false
  | RBool b => b
  | RInt n => negb (Z.eqb n 0)
  | RBytes s | RStr s => negb (String.eqb s "")
  | RSet s => negb (bool_decide (s = ∅))
  end.

(** The attributes of a connector object: those set by the
    constructors and the methods of the two classes. *)
Definition attributes : list string :=
  ["_host"; "_port"; "_db"; "_model_cache"; "_connection";
   "is_alive"; "_dump_content"; "_load_content"; "_connect";
   "_set_field"; "_get_field"; "_add_resource"; "_get_resource";
   "_remove_resource"; "refresh"; "get"; "get_all"; "remove"; "set"].

(** [is_alive] *)
Definition is_alive : M t bool :=
  try_except
    (self <- get_state ;;
     match _connection self with
     | None => ret false
     | Some _ =>
         pong <- call_connection "ping" [] ;;
         if reply_truthy pong then ret true else ret false
     end)
    (fun e => match e with
              | ConnectionError => Some (ret false)
              | _ => None
              end).

(** The call [self.name(value, content_key)] made inside
    [_dump_content]: among the attributes, [_dump_content] is the
    method taking these arguments, and [recurse] is its run on them. *)
Definition call_self {S} (name : string) (recurse : M S (pydict value))
  : M S (pydict value) :=
  if negb (existsb (String.eqb name) attributes) then
    raise (AttributeError "RedisConnector" name)
  else if String.eqb name "_dump_content" then recurse
  else raise (TypeError (Msg "%s() got an unexpected number of arguments" [name])).

(** [_dump_content(root, prefix)] *)
Fixpoint _dump_content_of {S} (root : value) (prefix : string) {struct root}
  : M S (pydict value) :=
  match root with
  | VDict items =>
      (fix loop (items : list (string * value)) (content : pydict value)
         : M S (pydict value) :=
         match items with
         | [] => ret content
         | (k, v) :: rest =>
             let content_key :=
               if negb (truthy (VStr prefix)) then k else prefix ++ "." ++ k in
             match v with
             | VDict _ =>
                 child_content <-
                   call_self "_process_content" (_dump_content_of v content_key) ;;
                 loop rest (dict_update content child_content)
             | _ => loop rest (dict_set content_key v content)
             end
         end) items []
  | _ => raise (AttributeError (type_name root) "items")
  end.

Definition _dump_content {S} (root : pydict value) (prefix : string)
  : M S (pydict value) :=
  _dump_content_of (VDict root) prefix.

(** [entities.pop()] *)
Fixpoint pop_last (entities : list string) : option (list string * string) :=
  match entities with
  | [] => None
  | [x] => Some ([], x)
  | x :: rest =>
      match pop_last rest with
      | Some (init, last) => Some (x :: init, last)
      | None => None
      end
  end.

Definition item_assignment_error {S A} (container : value) : M S A :=
  match container with
  | VList _ =>
      raise (TypeError (Msg "list indices must be integers or slices, not str" []))
  | _ =>
      raise (TypeError (Msg "%r object does not support item assignment"
                            [type_name container]))
  end.

(** The [while entities] walk of [_load_content] followed by the
    assignment, as the new content of [container]. *)
Fixpoint store_at {S} (entities : list string) (container_key : string)
         (v : value) (container : pydict value) : M S (pydict value) :=
  match entities with
  | [] => ret (dict_set container_key v container)
  | e :: rest =>
      match dict_get e container with
      | None =>
          child <- store_at rest container_key v [] ;;
          ret (dict_set e (VDict child) container)
      | Some (VDict d) =>
          child <- store_at rest container_key v d ;;
          ret (dict_set e (VDict child) container)
      | Some other =>
          match rest with
          | [] => item_assignment_error other
          | _ => raise (AttributeError (type_name other) "setdefault")
          end
      end
  end.

(** [_load_content(data)] *)
Fixpoint _load_content_loop {S} (items : pydict value) (content : pydict value)
  : M S (pydict value) :=
  match items with
  | [] => ret content
  | (k, v) :: rest =>
      match pop_last (split "."%char k) with
      | None => raise (IndexError (Msg "pop from empty list" []))
      | Some (entities, container_key) =>
          content' <- store_at entities container_key v content ;;
          _load_content_loop rest content'
      end
  end.

Definition _load_content {S} (data : pydict value) : M S (pydict value) :=
  _load_content_loop data [].

(** The value a reply stands for, when it has one. *)
Definition reply_value (r : reply) : option value :=
  match r with
  | RNone => Some VNone
  | RBool b => Some (VBool b)
  | RInt n => Some (VInt n)
  | RStr s => Some (VStr s)
  | RBytes _ | RSet _ => None
  end.

Definition reply_type (r : reply) : string :=
  match r with
  | RNone => "NoneType"
  | RBool _ => "bool"
  | RInt _ => "int"
  | RBytes _ => "bytes"
  | RStr _ => "str"
  | RSet _ => "set"
  end.

Section Methods.
(** The configuration, and the two functions of the Python library
    the methods apply to values: [str] (through [format] and the
    client's encoding of its arguments) and [json.dumps]. *)
Variable CONFIG : Config.
Variable str_ : value -> string.
Variable json_dumps : value -> string.

(** [_connect]: the value returned is [True], [False] or [None]. *)
Definition _connect : M t value :=
  try_except
    (load_global "redis" ;;;
     modify (fun self => set_connection (Some (new_client self)) self) ;;;
     alive <- is_alive ;;
     if negb alive then ret (VBool true) else ret VNone)
    (fun e => match e with
              | ConnectionError | RedisError => Some (ret (VBool false))
              | _ => None
              end).

(** [_set_field] *)
Definition _set_field (model_name : string) (resource_id : value)
           (field : string) (v : value) : M t unit :=
  let field_key := str_ resource_id ++ "." ++ field in
  self <- get_state ;;
  match _connection self with
  | None => raise (AttributeError "NoneType" "hset")
  | Some _ =>
      load_global "json" ;;;
      call_connection "hset" [model_name; field_key; json_dumps v] ;;;
      ret tt
  end.

(** [_get_field] *)
Definition _get_field (model_name : string) (resource_id : text) (field : string)
  : M t string :=
  let field_key := formatted resource_id ++ "." ++ field in
  r <- call_connection "hfet" [model_name; field_key] ;;
  load_global "json" ;;;
  match reply_value r with
  | Some v => ret (json_dumps v)
  | None => raise (TypeError (Msg "Object of type %s is not JSON serializable"
                                  [reply_type r]))
  end.

(** [_add_resource] *)
Definition _add_resource (model_name : string) (resource_id : value)
           (content : pydict value) : M t unit :=
  let models_key := "models." ++ model_name in
  call_connection "sadd" [models_key; str_ resource_id] ;;;
  let schema_key := str_ resource_id ++ ".fields" in
  call_connection "hset" ["schema"; schema_key; join "," (dict_keys content)] ;;;
  for_each content
    (fun item => _set_field model_name resource_id (fst item) (snd item)).

(** The loop of [_get_resource]; [field] is the local variable of
    that name, unbound until its first assignment. *)
Fixpoint _get_resource_loop (model_name : string) (resource_id : text)
         (keys : list string) (field : option string)
         (resource : pydict value) : M t (pydict value) :=
  match keys with
  | [] => ret resource
  | k :: rest =>
      argument <- match field with
                  | Some f => ret f
                  | None => raise (UnboundLocalError "field")
                  end ;;
      f <- _get_field model_name resource_id argument ;;
      _get_resource_loop model_name resource_id rest (Some f)
                         (dict_set k (VStr f) resource)
  end.

(** [_get_resource]: [resource_id] is the [str] that [get] was given or
    the [bytes] of a member of the index in [get_all].  The call
    [resource_keys.split(",")] has a [str] separator, which [bytes] do
    not take. *)
Definition _get_resource (model_name : string) (resource_id : text)
  : M t (pydict value) :=
  let models_key := "models." ++ model_name in
  call_connection "sismember" [models_key; encoded resource_id] ;;;
  let schema_key := formatted resource_id ++ ".fields" in
  resource_keys <- call_connection "hget" ["schema"; schema_key] ;;
  match resource_keys with
  | RStr keys =>
      _get_resource_loop model_name resource_id (split ","%char keys) None []
  | RBytes _ =>
      raise (TypeError (Msg "a bytes-like object is required, not 'str'" []))
  | RNone | RBool _ | RInt _ | RSet _ =>
      raise (AttributeError (reply_type resource_keys) "split")
  end.

(** [_remove_resource] *)
Definition _remove_resource (model_name resource_id : string) : M t unit :=
  let models_key := "models." ++ model_name in
  call_connection "srem" [models_key; resource_id] ;;;
  let schema_key := resource_id ++ ".fields" in
  call_connection "hget" ["schema"; schema_key] ;;;
  call_connection "hdel" ["schema"; schema_key] ;;;
  ret tt.

(** One turn of the loop of [refresh]: [is_alive() or _connect()]. *)
Definition attempt : M t bool :=
  alive <- is_alive ;;
  if alive then ret true
  else (connected <- _connect ;; ret (truthy connected)).

(** The [for] loop of [refresh]: whether it was left by [break]. *)
Fixpoint refresh_loop (turns : nat) : M t bool :=
  match turns with
  | 0 => ret false
  | S turns' =>
      passed <- attempt ;;
      if passed then ret true else refresh_loop turns'
  end.

(** [refresh] *)
Definition refresh : M t bool :=
  load_global "CONFIG" ;;;
  broke <- refresh_loop (retry_count CONFIG) ;;
  if broke then ret true
  else raise (ArestorException (Msg "Failed to connect to Redis Server." [])).

(** [get] *)
Definition get (resource_id model_name : string) : M t (pydict value) :=
  refresh ;;;
  content <- _get_resource model_name resource_id ;;
  _load_content content.

Fixpoint get_all_loop (model_name : string) (ids : list string)
         (resources : list (pydict value)) : M t (list (pydict value)) :=
  match ids with
  | [] => ret resources
  | resource_id :: rest =>
      content <- _get_resource model_name (Bytes resource_id) ;;
      loaded <- _load_content content ;;
      get_all_loop model_name rest (resources ++ [loaded])%list
  end.

(** [get_all] *)
Definition get_all (model_name : string) : M t (list (pydict value)) :=
  refresh ;;;
  let models_key := "models." ++ model_name in
  members <- call_connection "smembers" [models_key] ;;
  match members with
  | RSet ids => get_all_loop model_name (elements ids) []
  | _ => raise (TypeError (Msg "%r object is not iterable" ["reply"]))
  end.

(** [remove]: the body ends after the refresh. *)
Definition remove (resource_id model_name : string) : M t unit :=
  refresh ;;; ret tt.

(** [set] *)
Definition set (model : model_object) : M t unit :=
  refresh ;;;
  content <- _dump_content
               (BaseModel.dump (_meta (class_of model)) true (state_of model)) "" ;;
  resource_id <- getattr_field model "resource_id" ;;
  _add_resource (cls_name (class_of model)) resource_id content.

(** The connector as [ArestorModel] calls it.  [set] is defined
    with the single parameter [model], so the call with the model
    and the class name does not bind; [get] and [remove] bind their
    first argument to [resource_id] and the second to [model_name]. *)
#[local] Instance RedisConnector_Connector : Connector t := {
  connector_set model name :=
    raise (TypeError (Msg "set() takes 2 positional arguments but 3 were given" []));
  connector_get first second := get first second;
  connector_get_all model_name := get_all model_name;
  connector_remove first second := remove first second
}.
End Methods.

End RedisConnector.

End connector.

(** ** util.py *)

Module util.
Import Py.
Local Open Scope py_scope.

(** *** Padding

    A message is the list of the codes of its characters (or of its
    bytes, in [decrypt]).  The two static methods raise exceptions of
    their own. *)

Inductive padding_error :=
| ZeroDivisionError
| ValueError (m : message)
| OrdTypeError (m : message).

(** [chr(n)] *)
Definition chr (n : Z) : N + padding_error :=
  if (0 <=? n)%Z && (n <=? 1114111)%Z then inl (Z.to_N n)
  else inr (ValueError (Msg "chr() arg not in range(0x110000)" [])).

(** [n * s] for a string [s] of one character: empty when [n <= 0]. *)
Definition repeat_char (n : Z) (c : N) : list N := repeat c (Z.to_nat n).

(** [_padding(message, block_size)] *)
Definition _padding (message : list N) (block_size : Z) : list N + padding_error :=
  if (block_size =? 0)%Z then inr ZeroDivisionError
  else
    let count := (block_size - Z.of_nat (length message) mod block_size)%Z in
    match chr count with
    | inl c => inl (message ++ repeat_char count c)%list
    | inr e => inr e
    end.

(** [message[:-k]] *)
Definition drop_last (k : N) (message : list N) : list N :=
  if (k =? 0)%N then []
  else firstn (length message - N.to_nat k) message.

(** [_remove_padding(message)] *)
Definition _remove_padding (message : list N) : list N + padding_error :=
  match skipn (length message - 1) message with
  | [c] => inl (drop_last c message)
  | last =>
      inr (OrdTypeError
             (Msg "ord() expected a character, but string of length %d found"
                  [pretty (length last)]))
  end.

(** *** Searching the object tree

    The objects [get_attribute] walks through: each has its own
    attributes, whose values are [None] or objects again.  The names
    every Python object answers to ([__class__] and the like) are not
    among them. *)
#[warnings="-register-all"] Inductive object :=
| Object (attributes : list (string * option object)).

Definition attributes_of (o : object) : list (string * option object) :=
  match o with Object attributes => attributes end.


End util.

(** ** api/v1/openstack.py *)

Module openstack.
Import Py.
Local Open Scope py_scope.

(** [name.replace(old, new)] for single characters. *)
Fixpoint replace_char (old new : ascii) (s : string) : string :=
  match s with
  | EmptyString => EmptyString
  | String c s' => String (if Ascii.eqb c old then new else c) (replace_char old new s')
  end.

(** [OpenStackEndpoint.__getattr__], on the instance dictionary: the
    value found, [None] when there is none. *)
Definition __getattr__ {S V} (class_name : string) (instance_dict : pydict V)
           (name : string) : M S (option V) :=
  if contains_char "_"%char name then
    ret (dict_get (replace_char "_"%char "-"%char name) instance_dict)
  else
    raise (AttributeError class_name name).

End openstack.

(** ** Scenarios

    The record types, records and connectors the statements below are
    evaluated on. *)

Module Scenarios.
Import Py model connector.
Local Open Scope py_scope.

(** A name field that is required and has no default, and a counter
    that defaults to zero. *)
Definition name_field : Field :=
  {| name := "name"; key := "name"; field_type := TStr; default := Plain VNone;
     is_required := true; is_read_only := false |}.

Definition count_field : Field :=
  {| name := "count"; key := "count"; field_type := TInt; default := Plain (VInt 0);
     is_required := false; is_read_only := false |}.

Definition Sample : model_class :=
  __new__ "Sample" [BaseModel.cls] [("name", name_field); ("count", count_field)].

(** A required field stored under a key other than its name. *)
Definition label_field : Field :=
  {| name := "label"; key := "lbl"; field_type := TStr; default := Plain VNone;
     is_required := true; is_read_only := false |}.

Definition Labelled : model_class :=
  __new__ "Labelled" [BaseModel.cls] [("label", label_field)].

(** A required field [owner] stored under [user], next to an optional
    field whose key is the word [owner]. *)
Definition owner_field : Field :=
  {| name := "owner"; key := "user"; field_type := TStr; default := Plain VNone;
     is_required := true; is_read_only := false |}.

Definition alias_field : Field :=
  {| name := "alias"; key := "owner"; field_type := TStr; default := Plain VNone;
     is_required := false; is_read_only := false |}.

Definition Owned : model_class :=
  __new__ "Owned" [BaseModel.cls] [("owner", owner_field); ("alias", alias_field)].

(** A read-only field. *)
Definition serial_field : Field :=
  {| name := "serial"; key := "serial"; field_type := TStr; default := Plain VNone;
     is_required := false; is_read_only := true |}.

Definition Sealed : model_class :=
  __new__ "Sealed" [BaseModel.cls] [("serial", serial_field)].

(** A stored record type: [ArestorModel] extended with a host name. *)
Definition uuid_of_tick (tick : nat) : string := "uuid-" ++ pretty tick.

Definition hostname_field : Field := Field_ "hostname" "hostname".

Definition Instance_ : model_class :=
  __new__ "Instance_" [ArestorModel.cls uuid_of_tick] [("hostname", hostname_field)].

Definition blank : BaseModel.t :=
  {| BaseModel._data := []; BaseModel._changes := []; BaseModel._cache := [];
     BaseModel._provision_done := false |}.

(** The record the constructor of [c] builds from [fields], or [blank] when the
    constructor raises. *)
Definition built (c : model_class) (fields : pydict value) : BaseModel.t :=
  match BaseModel.__init__ (_meta c) fields 0 with
  | (Ok r, _) => r
  | (Raise _, _) => blank
  end.

Definition settings (retries : nat) : Config :=
  {| retry_count := retries; redis_host := "localhost"; redis_port := 6379;
     redis_database := 0 |}.

(** A connector that was never connected, in front of an empty server. *)
Definition unconnected (up : nat -> bool) : RedisConnector.t :=
  {| RedisConnector._host := "localhost"; RedisConnector._port := 6379;
     RedisConnector._db := 0; RedisConnector._model_cache := [];
     RedisConnector._connection := None; RedisConnector.server := empty_data;
     RedisConnector.reachable := up; RedisConnector.round_trips := 0 |}.

Definition always_up (n : nat) : bool := true.
Definition always_down (n : nat) : bool := false.

(** [str] on the strings that resource ids are. *)
Definition str_of (v : value) : string :=
  match v with
  | VStr s => s
  | VNone => "None"
  | VBool true => "True"
  | VBool false => "False"
  | VInt n => pretty n
  | _ => type_name v
  end.

(** Two connectors of the simplest kind: one keeps the dumps it is
    given, the other one is out of reach. *)
Definition Journal : Type := list (string * pydict value).

#[export] Instance Journal_Connector : Connector Journal := {
  connector_set model name :=
    modify (fun journal =>
              (journal ++ [(name, BaseModel.dump (_meta (class_of model)) true
                                                 (state_of model))])%list);
  connector_get first second := raise (NotFound (Msg "%r" [second]));
  connector_get_all model_name := ret [];
  connector_remove first second := ret tt
}.

Inductive Offline := offline.

#[export] Instance Offline_Connector : Connector Offline := {
  connector_set model name := raise ConnectionError;
  connector_get first second := raise ConnectionError;
  connector_get_all model_name := raise ConnectionError;
  connector_remove first second := raise ConnectionError
}.

(** A [Sample] record after a commit, and an [Owned] record whose
    owner was then cleared through [update]. *)
Definition saved : BaseModel.t :=
  snd (BaseModel.commit (built Sample [("name", VStr "x")])).

Definition disowned : BaseModel.t :=
  snd (BaseModel.update (_meta Owned) [("owner", VNone)]
         (built Owned [("owner", VStr "ann"); ("alias", VStr "a")])).

(** A record of the stored type whose pending changes were filled in
    directly: a host name other than the one the data hold, and a key
    the data do not have. *)
Definition drifted : BaseModel.t :=
  {| BaseModel._data := [("resource_id", VStr "uuid-0"); ("hostname", VStr "h")];
     BaseModel._changes := [("hostname", VStr "g"); ("zone", VStr "z")];
     BaseModel._cache := []; BaseModel._provision_done := true |}.

(** A record of the stored type, as the connector receives it. *)
Definition an_instance : model_object :=
  {| class_of := Instance_;
     state_of := built Instance_ [("hostname", VStr "h")] |}.

(** The nested map of the flattening scenario and its flat form. *)
Definition nested : pydict value :=
  [("a", VDict [("b", VInt 1); ("c", VInt 2)]); ("d", VInt 3)].

Definition flat : pydict value :=
  [("a.b", VInt 1); ("a.c", VInt 2); ("d", VInt 3)].

(** A ticket with three fields filled by default factories: two stamps
    that count the factory calls, and between them a slot taken from a
    list that is empty ([default=[].pop]), a call that raises. *)
Definition stamp_field (n : string) : Field :=
  {| name := n; key := n; field_type := TInt;
     default := Callable (fun tick => Ok (VInt (Z.of_nat tick)));
     is_required := false; is_read_only := false |}.

Definition slot_field : Field :=
  {| name := "slot"; key := "slot"; field_type := TInt;
     default := Callable (fun _ => Raise (IndexError (Msg "pop from empty list" [])));
     is_required := false; is_read_only := false |}.

Definition Ticket : model_class :=
  __new__ "Ticket" [BaseModel.cls]
    [("opened", stamp_field "opened"); ("slot", slot_field);
     ("closed", stamp_field "closed")].

(** A page size that defaults to twenty. *)
Definition size_field : Field :=
  {| name := "page_size"; key := "size"; field_type := TInt;
     default := Plain (VInt 20); is_required := false; is_read_only := false |}.

Definition Paged : model_class :=
  __new__ "Paged" [BaseModel.cls] [("page_size", size_field)].

End Scenarios.

(** ** Predicates the statements use *)

Module Predicates.
Import Py model.
Import BaseModel.

(** Every pending change is what the data currently holds under its key;
    the pending changes form a dictionary (one entry per key). *)
Definition pending_in_data (self : t) : Prop :=
  forall k v, dict_get k (_changes self) = Some v -> dict_get k (_data self) = Some v.

Definition changes_keyed (self : t) : Prop := NoDup (dict_keys (_changes self)).

(** The pending changes after [update] has gone through the schema. *)
Definition stage (fields : pydict value) (changes : pydict value)
           (item : string * Field) : pydict value :=
  match dict_get (fst item) fields with
  | Some v => dict_set (key (snd item)) v changes
  | None => changes
  end.

Definition staged (meta : _ModelOptions) (fields changes : pydict value) : pydict value :=
  fold_left (stage fields) (_fields meta) changes.

(** The fields of a schema are stored under distinct keys and have
    distinct names. *)
Definition distinct_keys (meta : _ModelOptions) : Prop :=
  NoDup (map key (dict_values (_fields meta))).

Definition distinct_names (meta : _ModelOptions) : Prop :=
  NoDup (map name (dict_values (_fields meta))).

(** Every dictionary inside a value has one entry per key. *)
Fixpoint well_keyed (v : value) : Prop :=
  match v with
  | VList l =>
      (fix each (l : list value) : Prop :=
         match l with
         | [] => True
         | x :: l' => well_keyed x /\ each l'
         end) l
  | VDict d =>
      NoDup (dict_keys d) /\
      (fix each (d : list (string * value)) : Prop :=
         match d with
         | [] => True
         | (_, x) :: d' => well_keyed x /\ each d'
         end) d
  | _ => True
  end.

(** What [dump] puts under the key of a field. *)
Definition dumped (include_read_only : bool) (self : t) (field : Field) : option value :=
  if is_read_only field && negb include_read_only then None
  else if negb (is_required field) && is_None (_unpack (__get__ field self)) then None
  else Some (_unpack (__get__ field self)).

(** The value found by going down nested dictionaries along a path. *)
Fixpoint path_get (path : list string) (d : pydict value) : option value :=
  match path with
  | [] => None
  | k :: rest =>
      match rest with
      | [] => dict_get k d
      | _ :: _ =>
          match dict_get k d with
          | Some (VDict d') => path_get rest d'
          | _ => None
          end
      end
  end.

Definition not_NotFound (e : exn) : Prop := forall m, e <> NotFound m.

(** [failed_turns n w w']: from [w], [n] turns of the loop of [refresh]
    in a row end with a false condition and leave the connector as [w']. *)
Inductive failed_turns : nat -> connector.RedisConnector.t -> connector.RedisConnector.t -> Prop :=
| failed_none w : failed_turns 0 w w
| failed_next n w w1 w2 :
    connector.RedisConnector.attempt w = (Ok false, w1) ->
    failed_turns n w1 w2 ->
    failed_turns (S n) w w2.

(** The server answers the next command sent through the connector. *)
Definition answers (w : connector.RedisConnector.t) : bool :=
  connector.RedisConnector.reachable w (connector.RedisConnector.round_trips w).

End Predicates.

(** * Properties *)

(** ** Dictionaries *)

Module DictFacts.
Import Py.

Section Lookup.
Context {V : Type}.
Implicit Types (k : string) (v : V) (d o : pydict V).

Lemma dict_get_set_eq k v d : dict_get k (dict_set k v d) = Some v.
Proof.
  induction d as [|[k' v'] d IH]; simpl.
  - now rewrite String.eqb_refl.
  - destruct (String.eqb_spec k k') as [->|Hne]; simpl.
    + now rewrite String.eqb_refl.
    + destruct (String.eqb_spec k k'); [contradiction | exact IH].
Qed.

Lemma dict_get_set_ne k k' v d :
  k <> k' -> dict_get k' (dict_set k v d) = dict_get k' d.
Proof.
  intros Hne. induction d as [|[k0 v0] d IH]; simpl.
  - destruct (String.eqb_spec k' k); [congruence | reflexivity].
  - destruct (String.eqb_spec k k0) as [->|Hk]; simpl.
    + destruct (String.eqb_spec k' k0); [congruence | reflexivity].
    + destruct (String.eqb_spec k' k0); [reflexivity | exact IH].
Qed.

Lemma dict_get_set k k' v d :
  dict_get k' (dict_set k v d) = if String.eqb k k' then Some v else dict_get k' d.
Proof.
  destruct (String.eqb_spec k k') as [->|Hne].
  - apply dict_get_set_eq.
  - now apply dict_get_set_ne.
Qed.

Lemma dict_get_None k d : dict_get k d = None <-> k ∉ dict_keys d.
Proof.
  induction d as [|[k' v'] d IH]; simpl.
  - split; [intros _; apply not_elem_of_nil | reflexivity].
  - rewrite not_elem_of_cons. destruct (String.eqb_spec k k') as [->|Hne].
    + split; [discriminate | intros [Hk _]; congruence].
    + rewrite IH. tauto.
Qed.

Lemma dict_get_Some_elem k v d : dict_get k d = Some v -> (k, v) ∈ d.
Proof.
  induction d as [|[k' v'] d IH]; simpl; [discriminate|].
  destruct (String.eqb_spec k k') as [->|Hne].
  - intros [= ->]. apply list_elem_of_here.
  - intros Hd. apply list_elem_of_further, IH, Hd.
Qed.

Lemma elem_dict_get k v d : NoDup (dict_keys d) -> (k, v) ∈ d -> dict_get k d = Some v.
Proof.
  induction d as [|[k' v'] d IH]; simpl.
  - intros _ Hin. now apply elem_of_nil in Hin.
  - rewrite NoDup_cons. intros [Hk Hd] Hin.
    apply elem_of_cons in Hin as [[= -> ->]|Hin].
    + now rewrite String.eqb_refl.
    + destruct (String.eqb_spec k k') as [->|Hne]; [|now apply IH].
      exfalso. apply Hk. unfold dict_keys.
      apply list_elem_of_In, in_map_iff. exists (k', v).
      split; [reflexivity | now apply list_elem_of_In].
Qed.

(** Writing the value a key already has changes nothing. *)
Lemma dict_set_same k v d : dict_get k d = Some v -> dict_set k v d = d.
Proof.
  induction d as [|[k' v'] d IH]; simpl; [discriminate|].
  destruct (String.eqb_spec k k') as [->|Hne].
  - now intros [= ->].
  - intros Hd. now rewrite IH.
Qed.

Lemma dict_keys_set k v d :
  dict_keys (dict_set k v d) =
  if dict_contains k d then dict_keys d else (dict_keys d ++ [k])%list.
Proof.
  unfold dict_contains. induction d as [|[k' v'] d IH]; simpl; [reflexivity|].
  destruct (String.eqb_spec k k') as [->|Hne]; simpl; [reflexivity|].
  rewrite IH. now destruct (dict_get k d).
Qed.

Lemma NoDup_dict_set k v d : NoDup (dict_keys d) -> NoDup (dict_keys (dict_set k v d)).
Proof.
  intros Hd. rewrite dict_keys_set. unfold dict_contains.
  destruct (dict_get k d) eqn:Hk; [exact Hd|].
  apply NoDup_app. repeat split.
  - exact Hd.
  - intros x Hx Hx'. apply list_elem_of_singleton in Hx' as ->.
    now apply dict_get_None in Hk.
  - apply NoDup_singleton.
Qed.

Lemma dict_update_cons d k v o :
  dict_update d ((k, v) :: o) = dict_update (dict_set k v d) o.
Proof. reflexivity. Qed.

Lemma NoDup_dict_update d o : NoDup (dict_keys d) -> NoDup (dict_keys (dict_update d o)).
Proof.
  revert d. induction o as [|[k v] o IH]; intros d Hd; [exact Hd|].
  rewrite dict_update_cons. now apply IH, NoDup_dict_set.
Qed.

(** [d.update(o)]: the entries of [o] take precedence. *)
Lemma dict_get_update k d o :
  NoDup (dict_keys o) ->
  dict_get k (dict_update d o) =
  match dict_get k o with Some v => Some v | None => dict_get k d end.
Proof.
  revert d. induction o as [|[k0 v0] o IH]; intros d Ho; [reflexivity|].
  simpl in Ho. apply NoDup_cons in Ho as [Hk0 Ho].
  rewrite dict_update_cons, IH by exact Ho. simpl.
  destruct (String.eqb_spec k k0) as [->|Hne].
  - apply dict_get_None in Hk0. now rewrite Hk0, dict_get_set_eq.
  - rewrite dict_get_set_ne by congruence. reflexivity.
Qed.

(** Updating with entries the dictionary already has changes nothing. *)
Lemma dict_update_included d o :
  (forall k v, (k, v) ∈ o -> dict_get k d = Some v) -> dict_update d o = d.
Proof.
  induction o as [|[k0 v0] o IH]; intros Hsub; [reflexivity|].
  rewrite dict_update_cons, dict_set_same.
  - apply IH. intros k v Hin. apply Hsub. now apply list_elem_of_further.
  - apply Hsub, list_elem_of_here.
Qed.

Lemma dict_get_remove_ne k k' d :
  k <> k' -> dict_get k' (dict_remove k d) = dict_get k' d.
Proof.
  intros Hne. induction d as [|[k0 v0] d IH]; simpl; [reflexivity|].
  destruct (String.eqb_spec k k0) as [->|Hk]; simpl.
  - destruct (String.eqb_spec k' k0); [congruence | reflexivity].
  - destruct (String.eqb_spec k' k0); [reflexivity | exact IH].
Qed.

Lemma dict_contains_set_ne k k' v d :
  k <> k' -> dict_contains k' (dict_set k v d) = dict_contains k' d.
Proof. intros Hne. unfold dict_contains. now rewrite dict_get_set_ne. Qed.

Lemma dict_set_fresh k v d : dict_get k d = None -> dict_set k v d = (d ++ [(k, v)])%list.
Proof.
  induction d as [|[k' v'] d IH]; simpl; [reflexivity|].
  destruct (String.eqb_spec k k'); [discriminate|].
  intros Hd. now rewrite IH.
Qed.

Lemma dict_get_app_None k d o :
  dict_get k (d ++ o)%list = None <-> dict_get k d = None /\ dict_get k o = None.
Proof.
  induction d as [|[k' v'] d IH]; simpl; [tauto|].
  destruct (String.eqb_spec k k'); [|exact IH].
  split; [discriminate | intros [? _]; discriminate].
Qed.

(** Updating with new keys appends the entries in their order. *)
Lemma dict_update_fresh o : forall d,
  NoDup (dict_keys o) ->
  (forall k, k ∈ dict_keys o -> dict_get k d = None) ->
  dict_update d o = (d ++ o)%list.
Proof.
  induction o as [|[k v] o IH]; intros d Ho Hfresh.
  - simpl. now rewrite app_nil_r.
  - simpl in Ho. apply NoDup_cons in Ho as [Hk Ho].
    rewrite dict_update_cons, dict_set_fresh by (apply Hfresh, list_elem_of_here).
    rewrite IH; [now rewrite <- app_assoc | exact Ho |].
    intros k' Hk'. apply dict_get_app_None. split.
    + apply Hfresh. now apply list_elem_of_further.
    + simpl. destruct (String.eqb_spec k' k) as [->|]; [contradiction | reflexivity].
Qed.

Lemma dict_update_nil o : NoDup (dict_keys o) -> dict_update [] o = o.
Proof. intros Ho. now apply dict_update_fresh. Qed.

End Lookup.

Lemma elem_of_map_intro {A B} (f : A -> B) (x : A) (l : list A) :
  x ∈ l -> f x ∈ map f l.
Proof. intros Hin. apply list_elem_of_In, in_map. now apply list_elem_of_In. Qed.

End DictFacts.

(** ** Records *)

Module ModelFacts.
Import Py model Scenarios Predicates DictFacts.
Import BaseModel.
Local Open Scope py_scope.

(** *** Field writes *)

Lemma __set___type_mismatch field v self :
  isinstance v (field_type field) = false ->
  __set__ field v self =
  (Raise (TypeError (Msg "Invalid type of value (should be %r)"
                         [repr_type (field_type field)])), self).
Proof. intros Hty. unfold __set__. now rewrite Hty. Qed.

Lemma __set___accepted field v self :
  isinstance v (field_type field) = true ->
  _provision_done self && is_read_only field = false ->
  __set__ field v self =
  (Ok tt, {| _data := dict_set (key field) v (_data self);
             _changes := dict_set (key field) v (_changes self);
             _cache := _cache self;
             _provision_done := _provision_done self |}).
Proof. intros Hty Hro. unfold __set__. now rewrite Hty, Hro. Qed.

Lemma __set___keeps_flag field v self :
  _provision_done (snd (__set__ field v self)) = _provision_done self.
Proof.
  unfold __set__.
  destruct (isinstance v (field_type field)); simpl; [|reflexivity].
  now destruct (_provision_done self && is_read_only field).
Qed.

(** The constructor's loop never touches the provisioning flag, so every
    write it makes sees it unset. *)
Lemma _set_fields_loop_keeps_flag fs : forall fields self,
  _provision_done (snd (_set_fields_loop fs fields self)) = _provision_done self.
Proof.
  induction fs as [|field fs IH]; intros fields self; [reflexivity|].
  simpl. unfold bind, get_state.
  destruct (negb (dict_contains (key field) (_data self))
            || truthy (dict_get_default (name field) fields)).
  - pose proof (__set___keeps_flag field (dict_get_default (name field) fields) self) as Hflag.
    destruct (__set__ field (dict_get_default (name field) fields) self) as [[[]|e] self'];
      simpl in *; [|exact Hflag].
    now rewrite IH.
  - unfold ret. now rewrite IH.
Qed.

(** Binding the keywords changes nothing: it passes or raises. *)
Lemma bind_keywords_cases {S} function parameters fields (s : S) :
  bind_keywords function parameters fields s = (Ok tt, s) \/
  exists e, bind_keywords function parameters fields s = (Raise e, s).
Proof.
  unfold bind_keywords.
  destruct (find _ (dict_keys fields)); [right; now eexists | now left].
Qed.

(** A constructor call that returned has bound its keywords. *)
Ltac keywords_bound fields tick :=
  destruct (bind_keywords_cases "__init__" ["self"] fields tick) as [->|[? ->]];
  [|discriminate].

Lemma __init___provisioned meta fields tick r tick' :
  __init__ meta fields tick = (Ok r, tick') -> _provision_done r = true.
Proof.
  unfold __init__, bind. keywords_bound fields tick.
  destruct (get_defaults meta tick) as [[defaults|e] tick1]; [|discriminate].
  match goal with |- context [_set_fields meta fields ?s] =>
    destruct (_set_fields meta fields s) as [[[]|e] self'] end;
    unfold ret, raise; intros [= <- <-]; reflexivity.
Qed.

(** C6. A correctly typed write to a read-only field goes through while
    the record is still being provisioned, and is refused, with the
    record left as it was, once provisioning is done; every record the
    constructor returns is in the second case. *)
Theorem read_only_after_provisioning field v :
  is_read_only field = true ->
  isinstance v (field_type field) = true ->
  (forall self, _provision_done self = false ->
     __set__ field v self =
     (Ok tt, {| _data := dict_set (key field) v (_data self);
                _changes := dict_set (key field) v (_changes self);
                _cache := _cache self;
                _provision_done := false |})) /\
  (forall self, _provision_done self = true ->
     __set__ field v self =
     (Raise (TypeError (Msg "%r does not support item assignment" [name field])),
      self)) /\
  (forall meta fields tick r tick',
     __init__ meta fields tick = (Ok r, tick') ->
     __set__ field v r =
     (Raise (TypeError (Msg "%r does not support item assignment" [name field])),
      r)).
Proof.
  intros Hro Hty.
  assert (Hdone : forall self, _provision_done self = true ->
            __set__ field v self =
            (Raise (TypeError (Msg "%r does not support item assignment" [name field])),
             self)).
  { intros self Hflag. unfold __set__. now rewrite Hty, Hflag, Hro. }
  split; [|split].
  - intros self Hflag. rewrite __set___accepted; [now rewrite Hflag | exact Hty |].
    now rewrite Hflag.
  - exact Hdone.
  - intros meta fields tick r tick' Hinit. apply Hdone.
    eapply __init___provisioned, Hinit.
Qed.

Lemma read_only_after_provisioning_witness :
  (__init__ (_meta Sealed) [("serial", VStr "s-1")] 0 =
   (Ok {| _data := [("serial", VStr "s-1")]; _changes := [("serial", VStr "s-1")];
          _cache := []; _provision_done := true |}, 0)) /\
  __set__ serial_field (VStr "s-2") (built Sealed [("serial", VStr "s-1")]) =
  (Raise (TypeError (Msg "%r does not support item assignment" ["serial"])),
   built Sealed [("serial", VStr "s-1")]).
Proof.
  split; [reflexivity|].
  exact (proj1 (proj2 (read_only_after_provisioning serial_field (VStr "s-2")
                         eq_refl eq_refl))
               (built Sealed [("serial", VStr "s-1")]) eq_refl).
Defined.

(** *** Construction, dump and validation on the sample schema *)

(** C8. With a required [name] without default and a [count] defaulting
    to zero, building from a name gives a record that dumps to the name
    and the default count; building from no field at all does not give a
    record: the constructor assigns [None] to [name] through the typed
    setter and raises, so [validate] is never reached. *)
Theorem sample_construction tick :
  (exists r, __init__ (_meta Sample) [("name", VStr "x")] tick = (Ok r, tick) /\
             dump (_meta Sample) true r = [("name", VStr "x"); ("count", VInt 0)]) /\
  __init__ (_meta Sample) [] tick =
  (Raise (TypeError (Msg "Invalid type of value (should be %r)" ["<class 'str'>"])),
   tick).
Proof.
  split; [|reflexivity].
  eexists. split; reflexivity.
Qed.

(** What [validate] does: it keeps the record as it is, and raises
    exactly when [_data] has nothing under the name of a required field. *)
Lemma validate_pure meta self : snd (validate meta self) = self.
Proof.
  unfold validate. induction (_fields meta) as [|item fs IH]; [reflexivity|].
  simpl. unfold bind, get_state.
  destruct (is_required (snd item)
            && is_None (dict_get_default (name (snd item)) (_data self)));
    simpl; [reflexivity | exact IH].
Qed.

Lemma validate_raises_iff meta self :
  (exists e, fst (validate meta self) = Raise e) <->
  (exists item, item ∈ _fields meta /\ is_required (snd item) = true /\
                dict_get_default (name (snd item)) (_data self) = VNone).
Proof.
  unfold validate. induction (_fields meta) as [|item fs IH].
  - split; [intros [e He]; discriminate | intros [item [Hin _]]].
    now apply elem_of_nil in Hin.
  - simpl. unfold bind, get_state.
    destruct (is_required (snd item)) eqn:Hreq; simpl.
    + destruct (dict_get_default (name (snd item)) (_data self)) eqn:Hv; simpl;
        try (split; [intros _; exists item; repeat split;
                     [apply list_elem_of_here | exact Hreq | exact Hv]
                    | intros _; eexists; reflexivity]);
        (rewrite IH; split;
         [ intros [it [Hin Hit]]; exists it; split;
           [now apply list_elem_of_further | exact Hit]
         | intros [it [Hin [Hr Hn]]]; apply elem_of_cons in Hin as [->|Hin];
           [congruence | exists it; auto] ]).
    + rewrite IH; split.
      * intros [it [Hin Hit]]; exists it; split;
          [now apply list_elem_of_further | exact Hit].
      * intros [it [Hin [Hr Hn]]]; apply elem_of_cons in Hin as [->|Hin];
          [congruence | exists it; auto].
Qed.

(** When every field is stored under its own name, this is the absence
    of the current value of a required field. *)
Lemma validate_raises_iff_absent meta self :
  (forall item, item ∈ _fields meta -> key (snd item) = name (snd item)) ->
  (exists e, fst (validate meta self) = Raise e) <->
  (exists item, item ∈ _fields meta /\ is_required (snd item) = true /\
                __get__ (snd item) self = VNone).
Proof.
  intros Hkeys. rewrite validate_raises_iff. unfold __get__.
  split; intros [item [Hin [Hreq Hv]]]; exists item; repeat split; auto;
    [rewrite Hkeys | rewrite <- Hkeys]; auto.
Qed.

(** C7. [validate] looks the value up under the name of the field, the
    accessor under its key.  A record whose required [label] is present
    (under the key [lbl]) is refused; a record whose required [owner] is
    absent passes, because another field is stored under the key
    [owner]. *)
Theorem validate_reads_by_name :
  (__get__ label_field (built Labelled [("label", VStr "x")]) = VStr "x" /\
   validate (_meta Labelled) (built Labelled [("label", VStr "x")]) =
   (Raise (DataProcessingError (Msg "The required field %(field)r is missing." ["label"])),
    built Labelled [("label", VStr "x")])) /\
  (__get__ owner_field disowned = VNone /\
   validate (_meta Owned) disowned = (Ok tt, disowned)).
Proof. repeat split. Qed.

(** *** Commit *)

Lemma commit_eq self :
  commit self =
  (Ok tt, {| _data := dict_update (_data self) (_changes self);
             _changes := [];
             _cache := _cache self;
             _provision_done := _provision_done self |}).
Proof. reflexivity. Qed.

Section StoreBacked.
Context {C : Type} `{Connector C}.

(** C4. [commit] on a stored record hands the record, as it is before
    any merge, to the connector's [set].  When that raises, the exception
    is passed on and the record is untouched; when it returns, the
    pending changes are emptied and the data read, under every key that
    was pending, the pending value, and under every other key what they
    read before. *)
Theorem commit_store_first (c : model_class) (conn : C) (self : t) :
  changes_keyed self ->
  match connector_set {| class_of := c; state_of := self |} (cls_name c) conn with
  | (Raise e, conn') =>
      ArestorModel.commit c (conn, self) = (Raise e, (conn', self))
  | (Ok _, conn') =>
      exists r,
        ArestorModel.commit c (conn, self) = (Ok tt, (conn', r)) /\
        _changes r = [] /\
        (forall k v, dict_get k (_changes self) = Some v ->
                     dict_get k (_data r) = Some v) /\
        (forall k, dict_get k (_changes self) = None ->
                   dict_get k (_data r) = dict_get k (_data self)) /\
        _cache r = _cache self /\
        _provision_done r = _provision_done self
  end.
Proof.
  intros Hkeyed.
  unfold ArestorModel.commit, bind, on_fst, on_snd, get_state. simpl.
  destruct (connector_set _ _ conn) as [[[]|e] conn']; [|reflexivity].
  eexists. split; [reflexivity|]. simpl. split; [reflexivity|].
  split; [|split; [|split; reflexivity]].
  - intros k v Hk. now rewrite dict_get_update, Hk.
  - intros k Hk. now rewrite dict_get_update, Hk.
Qed.

End StoreBacked.

(** Both cases occur.  A connector that keeps what it is given receives
    the dump of the record as it is before the merge: the host name the
    data hold, not the pending one, which the data hold afterwards.  A
    connector that is out of reach leaves the record with its pending
    change. *)
Lemma commit_store_first_witness :
  changes_keyed drifted /\
  (exists r,
     ArestorModel.commit Instance_ ([] : Journal, drifted) =
     (Ok tt,
      ([("Instance_", [("hostname", VStr "h"); ("resource_id", VStr "uuid-0")])]
         : Journal, r)) /\
     _changes r = [] /\
     dict_get "hostname" (_data r) = Some (VStr "g") /\
     dict_get "resource_id" (_data r) = Some (VStr "uuid-0")) /\
  ArestorModel.commit Instance_ (offline, drifted) =
  (Raise ConnectionError, (offline, drifted)).
Proof.
  assert (Hkeyed : changes_keyed drifted).
  { unfold changes_keyed. simpl. apply NoDup_ListNoDup.
    repeat constructor; simpl; intuition discriminate. }
  split; [exact Hkeyed|]. split.
  - destruct (commit_store_first Instance_ ([] : Journal) drifted Hkeyed)
      as [r [Hcommit [Hempty [Hpending [Hother _]]]]].
    exists r. split; [exact Hcommit|]. split; [exact Hempty|]. split.
    + now apply Hpending.
    + now rewrite Hother.
  - exact (commit_store_first Instance_ offline drifted Hkeyed).
Defined.

Example commit_to_journal :
  ArestorModel.commit Instance_
    ([] : Journal, built Instance_ [("hostname", VStr "h")]) =
  (Ok tt,
   ([("Instance_", [("hostname", VStr "h"); ("resource_id", VStr "uuid-0")])] : Journal,
    {| _data := [("resource_id", VStr "uuid-0"); ("hostname", VStr "h")];
       _changes := []; _cache := []; _provision_done := true |})).
Proof. reflexivity. Qed.

Example commit_offline :
  ArestorModel.commit Instance_ (offline, built Instance_ [("hostname", VStr "h")]) =
  (Raise ConnectionError, (offline, built Instance_ [("hostname", VStr "h")])).
Proof. reflexivity. Qed.

Example commit_drifted_to_journal :
  ArestorModel.commit Instance_ ([] : Journal, drifted) =
  (Ok tt,
   ([("Instance_", [("hostname", VStr "h"); ("resource_id", VStr "uuid-0")])] : Journal,
    {| _data := [("resource_id", VStr "uuid-0"); ("hostname", VStr "g");
                 ("zone", VStr "z")];
       _changes := []; _cache := []; _provision_done := true |})).
Proof. reflexivity. Qed.

(** *** Update *)

Lemma update_loop_eq fields items self :
  for_each items
    (fun item =>
       match dict_get (fst item) fields with
       | Some v =>
           modify (fun self =>
                     {| _data := _data self;
                        _changes := dict_set (key (snd item)) v (_changes self);
                        _cache := _cache self;
                        _provision_done := _provision_done self |})
       | None => ret tt
       end) self =
  (Ok tt, {| _data := _data self;
             _changes := fold_left (stage fields) items (_changes self);
             _cache := _cache self;
             _provision_done := _provision_done self |}).
Proof.
  revert self. induction items as [|item items IH]; intros self.
  - now destruct self.
  - simpl. unfold bind, stage at 2.
    destruct (dict_get (fst item) fields) as [v|]; unfold modify, ret; now rewrite IH.
Qed.

(** [update] as one assignment: nothing for an empty map, otherwise the
    schema fields named in the map are staged and the data is updated
    with all the pending changes. *)
Lemma update_eq meta fields self :
  update meta fields self =
  match fields with
  | [] => (Ok tt, self)
  | _ :: _ =>
      (Ok tt, {| _data := dict_update (_data self)
                                      (staged meta fields (_changes self));
                 _changes := staged meta fields (_changes self);
                 _cache := _cache self;
                 _provision_done := _provision_done self |})
  end.
Proof.
  unfold update, staged. destruct fields as [|kv fields]; [reflexivity|].
  change (negb (truthy (VDict (kv :: fields)))) with false. cbv iota.
  unfold bind at 1. rewrite update_loop_eq. reflexivity.
Qed.

Lemma staged_keyed fields items : forall changes,
  NoDup (dict_keys changes) ->
  NoDup (dict_keys (fold_left (stage fields) items changes)).
Proof.
  induction items as [|item items IH]; intros changes Hch; [exact Hch|].
  simpl. apply IH. unfold stage.
  destruct (dict_get (fst item) fields); [now apply NoDup_dict_set | exact Hch].
Qed.

(** A key no named field is stored under keeps its pending entry. *)
Lemma staged_other fields k items : forall changes,
  (forall item, item ∈ items -> key (snd item) = k ->
                dict_get (fst item) fields = None) ->
  dict_get k (fold_left (stage fields) items changes) = dict_get k changes.
Proof.
  induction items as [|item items IH]; intros changes Hk; [reflexivity|].
  simpl. rewrite IH.
  - unfold stage. destruct (dict_get (fst item) fields) as [v|] eqn:Hf; [|reflexivity].
    apply dict_get_set_ne. intros Heq.
    specialize (Hk item (list_elem_of_here _ _) Heq). congruence.
  - intros it Hin. apply Hk. now apply list_elem_of_further.
Qed.

(** A named field has its new value staged under its key. *)
Lemma staged_named fields item v items : forall changes,
  NoDup (map key (dict_values items)) ->
  item ∈ items ->
  dict_get (fst item) fields = Some v ->
  dict_get (key (snd item)) (fold_left (stage fields) items changes) = Some v.
Proof.
  induction items as [|it items IH]; intros changes Hnd Hin Hv.
  - now apply elem_of_nil in Hin.
  - simpl in Hnd. apply NoDup_cons in Hnd as [Hfresh Hnd].
    apply elem_of_cons in Hin as [->|Hin]; simpl.
    + rewrite staged_other.
      * unfold stage. rewrite Hv. apply dict_get_set_eq.
      * intros it' Hin' Hkey. exfalso. apply Hfresh. rewrite <- Hkey.
        apply list_elem_of_In, in_map, in_map. now apply list_elem_of_In.
    + now apply IH.
Qed.

(** C5, as the code has it. [update] stages the schema fields named in
    the map under their keys, leaves the other pending entries alone
    whatever else the map names, and in the same call writes the pending
    changes into the data: after it, the data shows every pending value
    and is otherwise as before. *)
Theorem update_stages_and_merges meta fields self :
  distinct_keys meta ->
  changes_keyed self ->
  pending_in_data self ->
  fst (update meta fields self) = Ok tt /\
  (forall item v, item ∈ _fields meta -> dict_get (fst item) fields = Some v ->
     dict_get (key (snd item)) (_changes (snd (update meta fields self))) = Some v /\
     dict_get (key (snd item)) (_data (snd (update meta fields self))) = Some v) /\
  (forall k, (forall item, item ∈ _fields meta -> key (snd item) = k ->
                           dict_get (fst item) fields = None) ->
     dict_get k (_changes (snd (update meta fields self))) = dict_get k (_changes self)) /\
  (forall k, dict_get k (_data (snd (update meta fields self))) =
             match dict_get k (_changes (snd (update meta fields self))) with
             | Some v => Some v
             | None => dict_get k (_data self)
             end).
Proof.
  intros Hkeys Hch Hsub. rewrite update_eq.
  destruct fields as [|kv fields].
  - simpl. split; [reflexivity|]. split; [|split].
    + intros item v _ Hv. discriminate.
    + reflexivity.
    + intros k. destruct (dict_get k (_changes self)) as [v|] eqn:Hk; [|reflexivity].
      now apply Hsub.
  - set (fs := kv :: fields). simpl fst. simpl snd. simpl _changes. simpl _data.
    assert (Hnd : NoDup (dict_keys (staged meta fs (_changes self))))
      by now apply staged_keyed.
    assert (Hmerge : forall k,
               dict_get k (dict_update (_data self) (staged meta fs (_changes self))) =
               match dict_get k (staged meta fs (_changes self)) with
               | Some v => Some v
               | None => dict_get k (_data self)
               end) by (intros k; now apply dict_get_update).
    split; [reflexivity|]. split; [|split].
    + intros item v Hin Hv.
      assert (Hst : dict_get (key (snd item)) (staged meta fs (_changes self)) = Some v)
        by now apply staged_named.
      split; [exact Hst|]. now rewrite Hmerge, Hst.
    + intros k Hk. now apply staged_other.
    + exact Hmerge.
Qed.

Lemma saved_eq :
  saved = {| _data := [("count", VInt 0); ("name", VStr "x")]; _changes := [];
             _cache := []; _provision_done := true |}.
Proof. reflexivity. Qed.

Lemma update_stages_and_merges_witness :
  dict_get "name" (_changes (snd (update (_meta Sample) [("name", VStr "y")] saved)))
  = Some (VStr "y") /\
  dict_get "name" (_data (snd (update (_meta Sample) [("name", VStr "y")] saved)))
  = Some (VStr "y").
Proof.
  assert (Hkeys : distinct_keys (_meta Sample)).
  { unfold distinct_keys. simpl. apply NoDup_ListNoDup.
    repeat constructor; simpl; intuition discriminate. }
  assert (Hch : changes_keyed saved) by (unfold changes_keyed; simpl; constructor).
  assert (Hsub : pending_in_data saved) by (intros k v; simpl; discriminate).
  destruct (update_stages_and_merges (_meta Sample) [("name", VStr "y")] saved
              Hkeys Hch Hsub) as [_ [Hnamed _]].
  apply (Hnamed ("name", name_field) (VStr "y")).
  - apply list_elem_of_here.
  - reflexivity.
Defined.

(** C5 as stated fails: on a committed record, [update] changes the
    data at once, before any [commit]. *)
Lemma update_leaves_data_counterexample :
  _changes saved = [] /\
  _data (snd (update (_meta Sample) [("name", VStr "y")] saved)) <> _data saved.
Proof. split; [reflexivity | discriminate]. Qed.

(** *** The pending changes are part of the data *)

Lemma __set___ok_inv field v self self' :
  __set__ field v self = (Ok tt, self') ->
  self' = {| _data := dict_set (key field) v (_data self);
             _changes := dict_set (key field) v (_changes self);
             _cache := _cache self;
             _provision_done := _provision_done self |}.
Proof.
  unfold __set__.
  destruct (isinstance v (field_type field)); simpl; [|discriminate].
  destruct (_provision_done self && is_read_only field); simpl; [discriminate|].
  now intros [= <-].
Qed.

Lemma __set___raise_inv field v self e self' :
  __set__ field v self = (Raise e, self') -> self' = self.
Proof.
  unfold __set__.
  destruct (isinstance v (field_type field)); simpl; [|now intros [= _ <-]].
  destruct (_provision_done self && is_read_only field); simpl;
    [now intros [= _ <-] | discriminate].
Qed.

Lemma written_invariant k v self :
  changes_keyed self -> pending_in_data self ->
  changes_keyed {| _data := dict_set k v (_data self);
                   _changes := dict_set k v (_changes self);
                   _cache := _cache self;
                   _provision_done := _provision_done self |} /\
  pending_in_data {| _data := dict_set k v (_data self);
                     _changes := dict_set k v (_changes self);
                     _cache := _cache self;
                     _provision_done := _provision_done self |}.
Proof.
  intros Hch Hsub. split.
  - unfold changes_keyed. simpl. now apply NoDup_dict_set.
  - intros k' v'. simpl. rewrite !dict_get_set.
    destruct (String.eqb k k'); [trivial | apply Hsub].
Qed.

Lemma __set___invariant field v self :
  changes_keyed self -> pending_in_data self ->
  changes_keyed (snd (__set__ field v self)) /\
  pending_in_data (snd (__set__ field v self)).
Proof.
  intros Hch Hsub.
  destruct (__set__ field v self) as [[[]|e] self'] eqn:Hset; simpl.
  - apply __set___ok_inv in Hset as ->. now apply written_invariant.
  - apply __set___raise_inv in Hset as ->. now split.
Qed.

Lemma _set_fields_loop_invariant fs : forall fields self,
  changes_keyed self -> pending_in_data self ->
  changes_keyed (snd (_set_fields_loop fs fields self)) /\
  pending_in_data (snd (_set_fields_loop fs fields self)).
Proof.
  induction fs as [|field fs IH]; intros fields self Hch Hsub; [now split|].
  simpl. unfold bind, get_state.
  destruct (negb (dict_contains (key field) (_data self))
            || truthy (dict_get_default (name field) fields)).
  - destruct (__set___invariant field (dict_get_default (name field) fields) self Hch Hsub)
      as [Hch' Hsub'].
    destruct (__set__ field (dict_get_default (name field) fields) self)
      as [[[]|e] self']; simpl in *; [now apply IH | now split].
  - unfold ret. now apply IH.
Qed.

Lemma __init___invariant meta fields tick r tick' :
  __init__ meta fields tick = (Ok r, tick') ->
  changes_keyed r /\ pending_in_data r.
Proof.
  unfold __init__, bind. keywords_bound fields tick.
  destruct (get_defaults meta tick) as [[defaults|e] tick1]; [|discriminate].
  set (self := {| _data := defaults; _changes := []; _cache := [];
                  _provision_done := false |}).
  assert (Hinv : changes_keyed (snd (_set_fields meta fields self)) /\
                 pending_in_data (snd (_set_fields meta fields self))).
  { unfold _set_fields, bind.
    pose proof (_set_fields_loop_invariant (dict_values (_fields meta)) fields self)
      as Hloop.
    destruct (_set_fields_loop (dict_values (_fields meta)) fields self)
      as [[rest|e] self'']; simpl in *; apply Hloop;
      try (unfold changes_keyed; simpl; constructor);
      intros k v; simpl; discriminate. }
  destruct (_set_fields meta fields self) as [[[]|e] self']; simpl in Hinv;
    unfold ret, raise; intros [= <- <-]. exact Hinv.
Qed.

Lemma update_invariant meta fields self :
  changes_keyed self -> pending_in_data self ->
  changes_keyed (snd (update meta fields self)) /\
  pending_in_data (snd (update meta fields self)).
Proof.
  intros Hch Hsub. rewrite update_eq. destruct fields as [|kv fields]; [now split|].
  assert (Hnd : NoDup (dict_keys (staged meta (kv :: fields) (_changes self))))
    by now apply staged_keyed.
  split; [exact Hnd|].
  intros k v. simpl. intros Hk. now rewrite dict_get_update, Hk.
Qed.

Lemma commit_invariant self :
  changes_keyed (snd (commit self)) /\ pending_in_data (snd (commit self)).
Proof.
  rewrite commit_eq. split.
  - unfold changes_keyed. simpl. constructor.
  - intros k v. simpl. discriminate.
Qed.

(** What the constructor's loop leaves under the keys of the fields it
    goes through, when these have distinct names and keys. *)
Lemma _set_fields_loop_assigned fs : forall fields self rest r,
  _set_fields_loop fs fields self = (Ok rest, r) ->
  NoDup (map name fs) -> NoDup (map key fs) ->
  (forall k, k ∉ map key fs ->
     dict_get k (_changes r) = dict_get k (_changes self) /\
     dict_get k (_data r) = dict_get k (_data self)) /\
  (forall field, field ∈ fs ->
     negb (dict_contains (key field) (_data self))
     || truthy (dict_get_default (name field) fields) = true ->
     dict_get (key field) (_changes r) = Some (dict_get_default (name field) fields)).
Proof.
  induction fs as [|f0 fs IH]; intros fields self rest r Hrun Hnames Hkeys.
  - simpl in Hrun. injection Hrun as <- <-. split; [now split|].
    intros field Hin. now apply elem_of_nil in Hin.
  - simpl in Hnames, Hkeys.
    apply NoDup_cons in Hnames as [Hname0 Hnames].
    apply NoDup_cons in Hkeys as [Hkey0 Hkeys].
    simpl in Hrun. unfold bind, get_state in Hrun.
    set (v0 := dict_get_default (name f0) fields) in *.
    assert (Hstep : exists s1,
               _set_fields_loop fs (dict_remove (name f0) fields) s1 = (Ok rest, r) /\
               (forall k, k <> key f0 ->
                  dict_get k (_changes s1) = dict_get k (_changes self) /\
                  dict_get k (_data s1) = dict_get k (_data self)) /\
               (negb (dict_contains (key f0) (_data self)) || truthy v0 = true ->
                dict_get (key f0) (_changes s1) = Some v0)).
    { destruct (negb (dict_contains (key f0) (_data self)) || truthy v0).
      - destruct (__set__ f0 v0 self) as [[[]|e] s1] eqn:Hset; [|discriminate].
        apply __set___ok_inv in Hset. subst s1. eexists. split; [exact Hrun|].
        split.
        + intros k Hk. simpl. now rewrite !dict_get_set_ne by congruence.
        + intros _. simpl. apply dict_get_set_eq.
      - exists self. unfold ret in Hrun. split; [exact Hrun|].
        split; [now split | discriminate]. }
    destruct Hstep as [s1 [Hrun1 [Hother Hhead]]].
    destruct (IH _ _ _ _ Hrun1 Hnames Hkeys) as [IHother IHfield].
    split.
    + intros k Hk. apply not_elem_of_cons in Hk as [Hk0 Hk].
      destruct (IHother k Hk) as [-> ->]. now apply Hother.
    + intros field Hin Hcond. apply elem_of_cons in Hin as [->|Hin].
      * destruct (IHother (key f0) Hkey0) as [-> _]. now apply Hhead.
      * assert (Hn : name f0 <> name field).
        { intros Heq. apply Hname0. rewrite Heq. now apply elem_of_map_intro. }
        assert (Hk : key field <> key f0).
        { intros Heq. apply Hkey0. rewrite <- Heq. now apply elem_of_map_intro. }
        assert (Hv : dict_get_default (name field) (dict_remove (name f0) fields) =
                     dict_get_default (name field) fields).
        { unfold dict_get_default. now rewrite dict_get_remove_ne. }
        rewrite <- Hv. apply IHfield; [exact Hin|]. rewrite Hv.
        unfold dict_contains in *. destruct (Hother (key field) Hk) as [_ ->].
        exact Hcond.
Qed.

Lemma __init___assigned meta fields tick r tick' defaults tick1 :
  __init__ meta fields tick = (Ok r, tick') ->
  get_defaults meta tick = (Ok defaults, tick1) ->
  distinct_names meta -> distinct_keys meta ->
  forall field, field ∈ dict_values (_fields meta) ->
    negb (dict_contains (key field) defaults)
    || truthy (dict_get_default (name field) fields) = true ->
    dict_get (key field) (_changes r) = Some (dict_get_default (name field) fields).
Proof.
  unfold __init__, bind. keywords_bound fields tick.
  intros Hinit Hdef Hnames Hkeys field Hin Hcond.
  rewrite Hdef in Hinit. unfold _set_fields, bind in Hinit.
  destruct (_set_fields_loop (dict_values (_fields meta)) fields
              {| _data := defaults; _changes := []; _cache := [];
                 _provision_done := false |}) as [[rest|e] self'] eqn:Hloop;
    unfold ret, raise in Hinit; [|discriminate].
  injection Hinit as <- <-. simpl.
  destruct (_set_fields_loop_assigned _ _ _ _ _ Hloop Hnames Hkeys) as [_ Hfield].
  now apply Hfield.
Qed.

Lemma stored_commit_invariant {C : Type} `{Connector C} c (conn : C) self :
  changes_keyed self -> pending_in_data self ->
  changes_keyed (snd (snd (ArestorModel.commit c (conn, self)))) /\
  pending_in_data (snd (snd (ArestorModel.commit c (conn, self)))).
Proof.
  intros Hch Hsub.
  unfold ArestorModel.commit, bind, on_fst, on_snd, get_state. simpl.
  destruct (connector_set _ _ conn) as [[[]|e] conn']; simpl.
  - apply (commit_invariant self).
  - now split.
Qed.

(** C10. The pending changes are always part of the data: the
    constructor returns a record in which every pending entry is the
    entry the data has under that key, and a field write, [update],
    [commit] and the stored [commit] keep it so.  The constructor does
    not empty the pending changes, so each field it assigned (one without
    default, or one given a true value) is pending, with the value
    assigned, in the record it returns. *)
Theorem pending_part_of_data :
  (forall meta fields tick r tick',
     __init__ meta fields tick = (Ok r, tick') ->
     changes_keyed r /\ pending_in_data r) /\
  (forall self,
     changes_keyed self -> pending_in_data self ->
     (forall field v,
        changes_keyed (snd (__set__ field v self)) /\
        pending_in_data (snd (__set__ field v self))) /\
     (forall meta fields,
        changes_keyed (snd (update meta fields self)) /\
        pending_in_data (snd (update meta fields self))) /\
     (changes_keyed (snd (commit self)) /\ pending_in_data (snd (commit self))) /\
     (forall (C : Type) (store : Connector C) c (conn : C),
        changes_keyed (snd (snd (ArestorModel.commit c (conn, self)))) /\
        pending_in_data (snd (snd (ArestorModel.commit c (conn, self)))))) /\
  (forall meta fields tick r tick' defaults tick1,
     __init__ meta fields tick = (Ok r, tick') ->
     get_defaults meta tick = (Ok defaults, tick1) ->
     distinct_names meta -> distinct_keys meta ->
     forall field, field ∈ dict_values (_fields meta) ->
       negb (dict_contains (key field) defaults)
       || truthy (dict_get_default (name field) fields) = true ->
       dict_get (key field) (_changes r) = Some (dict_get_default (name field) fields) /\
       dict_get (key field) (_data r) = Some (dict_get_default (name field) fields)).
Proof.
  split; [|split].
  - exact __init___invariant.
  - intros self Hch Hsub. split; [|split; [|split]].
    + intros field v. now apply __set___invariant.
    + intros meta fields. now apply update_invariant.
    + apply commit_invariant.
    + intros C store c conn. now apply stored_commit_invariant.
  - intros meta fields tick r tick' defaults tick1 Hinit Hdef Hnames Hkeys field Hin Hcond.
    assert (Hpending : dict_get (key field) (_changes r)
                       = Some (dict_get_default (name field) fields))
      by (eapply __init___assigned; eauto).
    split; [exact Hpending|].
    destruct (__init___invariant _ _ _ _ _ Hinit) as [_ Hsub]. now apply Hsub.
Qed.

Lemma pending_part_of_data_witness :
  pending_in_data (built Sample [("name", VStr "x")]) /\
  pending_in_data
    (snd (update (_meta Sample) [("count", VInt 2)] (built Sample [("name", VStr "x")]))) /\
  dict_get "name" (_changes (built Sample [("name", VStr "x")])) = Some (VStr "x").
Proof.
  destruct pending_part_of_data as [Hinit [Hkept Hfresh]].
  destruct (Hinit (_meta Sample) [("name", VStr "x")] 0
              (built Sample [("name", VStr "x")]) 0 eq_refl) as [Hch Hsub].
  split; [exact Hsub|]. split.
  - destruct (Hkept _ Hch Hsub) as [_ [Hupdate _]].
    exact (proj2 (Hupdate (_meta Sample) [("count", VInt 2)])).
  - refine (proj1 (Hfresh (_meta Sample) [("name", VStr "x")] 0
                     (built Sample [("name", VStr "x")]) 0 [("count", VInt 0)] 0
                     eq_refl eq_refl _ _ name_field _ eq_refl)).
    + unfold distinct_names. simpl. apply NoDup_ListNoDup.
      repeat constructor; simpl; intuition discriminate.
    + unfold distinct_keys. simpl. apply NoDup_ListNoDup.
      repeat constructor; simpl; intuition discriminate.
    + apply list_elem_of_here.
Defined.

End ModelFacts.

(** ** The connector *)

Module ConnectorFacts.
Import Py model connector Scenarios Predicates DictFacts.
Import RedisConnector.
Local Open Scope py_scope.

(** *** Flattening and its inverse *)

Lemma split_not_nil sep s : split sep s <> [].
Proof.
  destruct s as [|c s]; simpl; [discriminate|].
  destruct (Ascii.eqb c sep); [discriminate|].
  destruct (split sep s); discriminate.
Qed.

Lemma split_no_separator sep s : contains_char sep s = false -> split sep s = [s].
Proof.
  induction s as [|c s IH]; simpl; [reflexivity|].
  rewrite Ascii.eqb_sym. destruct (Ascii.eqb c sep); simpl; [discriminate|].
  intros Hs. now rewrite IH.
Qed.

Lemma _process_content_missing :
  existsb (String.eqb "_process_content") attributes = false.
Proof. reflexivity. Qed.

Lemma json_not_imported : existsb (String.eqb "json") module_globals = false.
Proof. reflexivity. Qed.

(** C2. Flattening the nested map of the scenario does not return the
    flat map: the first nested value sends [_dump_content] to
    [self._process_content], an attribute the connector does not have.
    Only the flat map itself goes through unchanged and is rebuilt into
    the nested map. *)
Theorem flatten_nested_raises {S} (s : S) :
  _dump_content nested "" s =
  (Raise (AttributeError "RedisConnector" "_process_content"), s) /\
  _dump_content flat "" s = (Ok flat, s) /\
  _load_content flat s = (Ok nested, s).
Proof. repeat split. Qed.

Lemma call_self_missing {S} (recurse : M S (pydict value)) :
  call_self "_process_content" recurse =
  raise (AttributeError "RedisConnector" "_process_content").
Proof. reflexivity. Qed.

(** Whatever comes before it, a nested map among the values makes
    [_dump_content] raise. *)
Lemma _dump_content_nested {S} root prefix (s : S) :
  (exists k d, (k, VDict d) ∈ root) ->
  _dump_content root prefix s =
  (Raise (AttributeError "RedisConnector" "_process_content"), s).
Proof.
  intros [k [d Hin]]. unfold _dump_content. simpl.
  generalize (@nil (string * value)).
  induction root as [|[k0 v0] root IH]; intros content.
  - now apply elem_of_nil in Hin.
  - apply elem_of_cons in Hin as [[= <- <-]|Hin].
    + now rewrite call_self_missing.
    + destruct v0; try (apply IH; exact Hin). now rewrite call_self_missing.
Qed.

(** Without a prefix, a map whose values are not maps is copied. *)
Lemma _dump_content_flat {S} root (s : S) :
  (forall k v, (k, v) ∈ root -> isinstance v TDict = false) ->
  _dump_content root "" s = (Ok (dict_update [] root), s).
Proof.
  unfold _dump_content, dict_update. simpl.
  generalize (@nil (string * value)).
  induction root as [|[k0 v0] root IH]; intros content Hflat; [reflexivity|].
  assert (Hv0 : isinstance v0 TDict = false) by (apply (Hflat k0), list_elem_of_here).
  assert (Hrest : forall k v, (k, v) ∈ root -> isinstance v TDict = false)
    by (intros k v Hin; apply (Hflat k); now apply list_elem_of_further).
  destruct v0; try discriminate; simpl; now rewrite IH.
Qed.

(** Keys without a dot are stored back at the top level. *)
Lemma _load_content_loop_flat {S} data (s : S) : forall content,
  (forall k, k ∈ dict_keys data -> contains_char "."%char k = false) ->
  _load_content_loop data content s = (Ok (dict_update content data), s).
Proof.
  induction data as [|[k v] data IH]; intros content Hkeys; [reflexivity|].
  simpl. rewrite split_no_separator by (apply Hkeys, list_elem_of_here).
  simpl. unfold bind, ret. rewrite IH; [reflexivity|].
  intros k' Hk'. apply Hkeys. now apply list_elem_of_further.
Qed.

(** The part of the round trip that holds: maps without nesting. *)
Lemma flat_round_trip {S} m (s : S) :
  NoDup (dict_keys m) ->
  (forall k, k ∈ dict_keys m -> contains_char "."%char k = false) ->
  (forall k v, (k, v) ∈ m -> isinstance v TDict = false) ->
  bind (_dump_content m "") _load_content s = (Ok m, s).
Proof.
  intros Hnd Hkeys Hflat. unfold bind.
  rewrite _dump_content_flat by exact Hflat.
  rewrite dict_update_nil by exact Hnd.
  unfold _load_content. rewrite _load_content_loop_flat by exact Hkeys.
  now rewrite dict_update_nil.
Qed.

(** *** Liveness and reconnection *)

Lemma is_alive_eq w :
  is_alive w =
  match _connection w with
  | None => (Ok false, w)
  | Some _ => (Ok (answers w), counted w)
  end.
Proof.
  unfold is_alive, try_except, bind, get_state, answers.
  destruct (_connection w) as [c|] eqn:Hc; [|reflexivity].
  unfold call_connection, bind, get_state. rewrite Hc. simpl.
  unfold bind, round_trip. now destruct (reachable w (round_trips w)).
Qed.

(** [_connect] answers [True] exactly when the server does not answer
    the probe of the new connection, and [None] when it does. *)
Lemma _connect_eq w :
  _connect w =
  (Ok (if answers w then VNone else VBool true),
   counted (set_connection (Some (new_client w)) w)).
Proof.
  unfold _connect, try_except, bind, load_global, modify. simpl.
  rewrite is_alive_eq. simpl. unfold answers. simpl.
  now destruct (reachable w (round_trips w)).
Qed.

Lemma attempt_eq w :
  attempt w =
  match _connection w with
  | Some _ =>
      if answers w then (Ok true, counted w)
      else (Ok (negb (answers (counted w))),
            counted (set_connection (Some (new_client (counted w))) (counted w)))
  | None =>
      (Ok (negb (answers w)), counted (set_connection (Some (new_client w)) w))
  end.
Proof.
  unfold attempt, bind. rewrite is_alive_eq.
  destruct (_connection w) as [c|].
  - destruct (answers w); [reflexivity|]. rewrite _connect_eq.
    now destruct (answers (counted w)).
  - rewrite _connect_eq. now destruct (answers w).
Qed.

Lemma attempt_total w : exists b w', attempt w = (Ok b, w').
Proof.
  rewrite attempt_eq. destruct (_connection w); [destruct (answers w)|]; eauto.
Qed.

Lemma attempt_keeps_server w : server (snd (attempt w)) = server w.
Proof.
  rewrite attempt_eq. destruct (_connection w); [destruct (answers w)|]; reflexivity.
Qed.

(** The loop stops at the first turn whose condition holds. *)
Lemma refresh_loop_stops n w w' :
  attempt w = (Ok true, w') -> refresh_loop (S n) w = (Ok true, w').
Proof. intros Hturn. simpl. unfold bind. now rewrite Hturn. Qed.

(** It runs out exactly when each of its turns failed. *)
Lemma refresh_loop_exhausted n : forall w w',
  refresh_loop n w = (Ok false, w') <-> failed_turns n w w'.
Proof.
  induction n as [|n IH]; intros w w'.
  - simpl. split.
    + intros [= <-]. constructor.
    + intros Hf. inversion Hf; subst. reflexivity.
  - simpl. unfold bind. split.
    + destruct (attempt w) as [[[]|e] w1] eqn:Hturn; try discriminate.
      intros Hrest. econstructor; [exact Hturn | now apply IH].
    + intros Hf. inversion Hf as [|n' w0 w1 w2 Hturn Hrest]; subst.
      rewrite Hturn. now apply IH.
Qed.

Lemma refresh_loop_total n : forall w, exists b w', refresh_loop n w = (Ok b, w').
Proof.
  induction n as [|n IH]; intros w; simpl; [now eexists _, _|].
  unfold bind. destruct (attempt_total w) as [b [w1 ->]].
  destruct b; [now eexists _, _ | apply IH].
Qed.

Lemma refresh_loop_keeps_server n : forall w, server (snd (refresh_loop n w)) = server w.
Proof.
  induction n as [|n IH]; intros w; [reflexivity|].
  simpl. unfold bind. pose proof (attempt_keeps_server w) as Hs.
  destruct (attempt w) as [[[]|e] w1]; simpl in Hs; try exact Hs.
  now rewrite IH.
Qed.

(** [refresh] either returns [True] or raises its own exception, the
    latter exactly after [retry_count] failed turns. *)
Lemma refresh_cases CONFIG w :
  (exists w', refresh CONFIG w = (Ok true, w')) \/
  (exists w', refresh CONFIG w =
              (Raise (ArestorException (Msg "Failed to connect to Redis Server." [])), w') /\
              failed_turns (retry_count CONFIG) w w').
Proof.
  unfold refresh, bind, load_global. simpl.
  destruct (refresh_loop_total (retry_count CONFIG) w) as [b [w' Hloop]].
  rewrite Hloop. destruct b; [left | right]; exists w'; [reflexivity|].
  split; [reflexivity | now apply refresh_loop_exhausted].
Qed.

Lemma refresh_keeps_server CONFIG w : server (snd (refresh CONFIG w)) = server w.
Proof.
  unfold refresh, bind, load_global. simpl.
  pose proof (refresh_loop_keeps_server (retry_count CONFIG) w) as Hs.
  destruct (refresh_loop (retry_count CONFIG) w) as [[[]|e] w']; exact Hs.
Qed.

(** C9. What counts as a passed turn is settled by [_connect], which
    answers [True] when the connection it has just made does not respond
    and [None] when it does.  With a single turn and a server that
    answers, [refresh] raises although the connector is left with a live
    connection; with a server that never answers, it returns [True] at
    the first turn and leaves a connection that is not alive. *)
Theorem refresh_reports_reconnect_backwards :
  (refresh (settings 1) (unconnected always_up) =
   (Raise (ArestorException (Msg "Failed to connect to Redis Server." [])),
    counted (set_connection (Some (new_client (unconnected always_up)))
                            (unconnected always_up))) /\
   fst (is_alive (snd (refresh (settings 1) (unconnected always_up)))) = Ok true) /\
  (forall retries,
     refresh (settings (S retries)) (unconnected always_down) =
     (Ok true,
      counted (set_connection (Some (new_client (unconnected always_down)))
                              (unconnected always_down))) /\
     fst (is_alive (snd (refresh (settings (S retries)) (unconnected always_down))))
     = Ok false).
Proof.
  split; [split; reflexivity|].
  intros retries. split; reflexivity.
Qed.

(** *** Reading a resource *)

Lemma call_sismember_eq name x w :
  call_connection "sismember" [name; x] w =
  match _connection w with
  | None => (Raise (AttributeError "NoneType" "sismember"), w)
  | Some _ =>
      if answers w
      then (Ok (RBool (bool_decide (x ∈ set_of name (server w)))), counted w)
      else (Raise ConnectionError, counted w)
  end.
Proof.
  unfold call_connection, bind, get_state, answers.
  destruct (_connection w); [|reflexivity]. simpl. unfold bind, round_trip.
  now destruct (reachable w (round_trips w)).
Qed.

Lemma call_hget_eq name k w :
  call_connection "hget" [name; k] w =
  match _connection w with
  | None => (Raise (AttributeError "NoneType" "hget"), w)
  | Some _ =>
      if answers w
      then (Ok (match hash_of name (server w) !! k with
                | Some v => RBytes v
                | None => RNone
                end), counted w)
      else (Raise ConnectionError, counted w)
  end.
Proof.
  unfold call_connection, bind, get_state, answers.
  destruct (_connection w); [|reflexivity]. simpl. unfold bind, round_trip.
  now destruct (reachable w (round_trips w)).
Qed.

(** Were the stored field names read as a [str], the loop over them
    would stop at its first turn: the argument [field] of the call is
    read before it was ever assigned. *)
Lemma _get_resource_loop_unbound json_dumps model_name resource_id k keys resource w :
  _get_resource_loop json_dumps model_name resource_id (k :: keys) None resource w =
  (Raise (UnboundLocalError "field"), w).
Proof. reflexivity. Qed.

(** [_get_resource] never returns a resource, and never reports it as
    not found. *)
Lemma _get_resource_raises json_dumps model_name resource_id w :
  exists e w', _get_resource json_dumps model_name resource_id w = (Raise e, w') /\
               not_NotFound e.
Proof.
  unfold _get_resource, bind. rewrite call_sismember_eq.
  destruct (_connection w) as [c|] eqn:Hc;
    [|eexists _, _; split; [reflexivity | intros m; discriminate]].
  destruct (answers w);
    [|eexists _, _; split; [reflexivity | intros m; discriminate]].
  rewrite call_hget_eq. simpl _connection. rewrite Hc.
  destruct (answers (counted w));
    [|eexists _, _; split; [reflexivity | intros m; discriminate]].
  destruct (hash_of "schema" (server (counted w)) !! (formatted resource_id ++ ".fields"))
    as [keys|]; eexists _, _; split; try reflexivity; intros m; discriminate.
Qed.

(** With a connection and a server that answers: [AttributeError] when
    the resource has no schema entry, [TypeError] when it has. *)
Lemma _get_resource_answered json_dumps model_name resource_id w c :
  _connection w = Some c -> answers w = true -> answers (counted w) = true ->
  fst (_get_resource json_dumps model_name resource_id w) =
  match hash_of "schema" (server w) !! (formatted resource_id ++ ".fields") with
  | None => Raise (AttributeError "NoneType" "split")
  | Some _ => Raise (TypeError (Msg "a bytes-like object is required, not 'str'" []))
  end.
Proof.
  intros Hc Hnow Hnext. unfold _get_resource, bind.
  rewrite call_sismember_eq, Hc, Hnow, call_hget_eq. simpl _connection.
  rewrite Hc, Hnext. change (server (counted w)) with (server w).
  now destruct (hash_of "schema" (server w) !! (formatted resource_id ++ ".fields")).
Qed.

Lemma get_raises CONFIG json_dumps resource_id model_name w :
  exists e, fst (get CONFIG json_dumps resource_id model_name w) = Raise e /\
            not_NotFound e.
Proof.
  unfold get, bind.
  destruct (refresh_cases CONFIG w) as [[w' ->]|[w' [-> _]]].
  - destruct (_get_resource_raises json_dumps model_name resource_id w')
      as [e [w'' [-> Hnot]]]. now exists e.
  - eexists. split; [reflexivity | intros m; discriminate].
Qed.

(** [remove] only refreshes the connection: the server keeps the index
    entry and the schema entry of the resource. *)
Lemma remove_keeps_server CONFIG resource_id model_name w :
  server (snd (remove CONFIG resource_id model_name w)) = server w.
Proof.
  unfold remove, bind. pose proof (refresh_keeps_server CONFIG w) as Hs.
  destruct (refresh CONFIG w) as [[b|e] w']; exact Hs.
Qed.

(** C3. [get] never raises the not-found error: whatever the connector
    and the server hold, it raises, and what it raises is something else.
    For a resource without schema entry on a server that answers this is
    the [AttributeError] of calling [split] on [None]; [remove] does not
    bring about that state either, since it leaves the server's data as
    they are. *)
Theorem get_absent_not_reported :
  (forall CONFIG json_dumps resource_id model_name w,
     exists e, fst (get CONFIG json_dumps resource_id model_name w) = Raise e /\
               not_NotFound e) /\
  (forall json_dumps,
     fst (get (settings 3) json_dumps "r1" "Instance_" (unconnected always_up)) =
     Raise (AttributeError "NoneType" "split")) /\
  (forall CONFIG resource_id model_name w,
     server (snd (remove CONFIG resource_id model_name w)) = server w).
Proof.
  split; [exact get_raises|]. split; [|exact remove_keeps_server].
  intros json_dumps. reflexivity.
Qed.

(** *** Writing a resource *)

(** [_set_field] never writes: with a connection, [json] is looked up
    and is not a name of the module. *)
Lemma _set_field_raises str_ json_dumps model_name resource_id field v w :
  _set_field str_ json_dumps model_name resource_id field v w =
  (Raise (match _connection w with
          | None => AttributeError "NoneType" "hset"
          | Some _ => NameError "json"
          end), w).
Proof.
  unfold _set_field, bind, get_state. now destruct (_connection w).
Qed.

Lemma _add_resource_raises str_ json_dumps model_name resource_id item content w :
  exists e, fst (_add_resource str_ json_dumps model_name resource_id (item :: content) w)
            = Raise e.
Proof.
  unfold _add_resource, bind.
  destruct (call_connection "sadd" _ w) as [[r|e] w1]; [|now exists e].
  destruct (call_connection "hset" _ w1) as [[r'|e] w2]; [|now exists e].
  simpl. unfold bind. rewrite _set_field_raises. now eexists.
Qed.

(** A flattened map is empty only if the map was. *)
Lemma _dump_content_cases {S} root prefix (s : S) :
  _dump_content root prefix s =
  (Raise (AttributeError "RedisConnector" "_process_content"), s) \/
  exists content, _dump_content root prefix s = (Ok content, s) /\
                  (root <> [] -> content <> []).
Proof.
  unfold _dump_content. simpl.
  assert (Hloop : forall items acc,
    let run :=
      (fix loop (items : list (string * value)) (content : pydict value)
         : M S (pydict value) :=
         match items with
         | [] => ret content
         | (k, v) :: rest =>
             let content_key :=
               if negb (truthy (VStr prefix)) then k else prefix ++ "." ++ k in
             match v with
             | VDict _ =>
                 child_content <-
                   call_self "_process_content" (_dump_content_of v content_key) ;;
                 loop rest (dict_update content child_content)
             | _ => loop rest (dict_set content_key v content)
             end
         end) in
    run items acc s = (Raise (AttributeError "RedisConnector" "_process_content"), s) \/
    exists content, run items acc s = (Ok content, s) /\
                    (items <> [] \/ acc <> [] -> content <> [])).
  { induction items as [|[k v] items IH]; intros acc run.
    - right. exists acc. split; [reflexivity|]. now intros [Hi|Ha].
    - assert (Hset : forall key, dict_set key v acc <> [])
        by (intros key; destruct acc as [|[k0 v0] acc]; simpl;
            [discriminate | destruct (String.eqb key k0); discriminate]).
      subst run. destruct v; try (left; reflexivity);
        match type of Hset with
        | forall key, dict_set key ?leaf acc <> [] =>
            destruct (IH (dict_set (if negb (truthy (VStr prefix)) then k
                                    else prefix ++ "." ++ k) leaf acc))
              as [Hraise|[content [Hok Hne]]];
            [left; exact Hraise
            | right; exists content; split;
              [exact Hok | intros _; apply Hne; right; apply Hset]]
        end. }
  destruct (Hloop root []) as [Hraise|[content [Hok Hne]]]; [now left|].
  right. exists content. split; [exact Hok|]. intros Hroot. apply Hne. now left.
Qed.

(** [set] never returns when the record has anything to dump. *)
Lemma set_raises CONFIG str_ json_dumps model w :
  BaseModel.dump (_meta (class_of model)) true (state_of model) <> [] ->
  exists e, fst (set CONFIG str_ json_dumps model w) = Raise e.
Proof.
  intros Hdump. unfold set, bind.
  destruct (refresh CONFIG w) as [[b|e] w1]; [|now exists e].
  destruct (_dump_content_cases
              (BaseModel.dump (_meta (class_of model)) true (state_of model)) "" w1)
    as [->|[content [-> Hne]]]; [now eexists|].
  destruct (getattr_field model "resource_id" w1) as [[rid|e] w2]; [|now exists e].
  destruct content as [|item content]; [now destruct (Hne Hdump)|].
  apply _add_resource_raises.
Qed.

(** C1. A record that is set is not read back.  [set] raises
    [NameError] at the first field it writes, with the index entry and
    the list of field names already stored and no field value; [get]
    then raises [TypeError], since the list of field names comes back as
    [bytes] and is split at a [str].  Whatever the connector and the
    server hold, [get] raises; and were the names a [str], the loop over
    them would raise [UnboundLocalError] at its first turn, where the
    local [field] is read before it is assigned. *)
Theorem set_then_get_raises :
  (forall str_ json_dumps,
     fst (set (settings 3) str_ json_dumps an_instance (unconnected always_up)) =
     Raise (NameError "json")) /\
  (forall json_dumps,
     hash_of "schema"
       (server (snd (set (settings 3) str_of json_dumps an_instance
                         (unconnected always_up)))) !! "uuid-0.fields"
     = Some "hostname,resource_id" /\
     hash_of "Instance_"
       (server (snd (set (settings 3) str_of json_dumps an_instance
                         (unconnected always_up)))) = ∅ /\
     fst (get (settings 3) json_dumps "uuid-0" "Instance_"
              (snd (set (settings 3) str_of json_dumps an_instance
                        (unconnected always_up)))) =
     Raise (TypeError (Msg "a bytes-like object is required, not 'str'" []))) /\
  (forall CONFIG json_dumps resource_id model_name w,
     exists e, fst (get CONFIG json_dumps resource_id model_name w) = Raise e) /\
  (forall json_dumps model_name resource_id k keys resource w,
     _get_resource_loop json_dumps model_name resource_id (k :: keys) None resource w =
     (Raise (UnboundLocalError "field"), w)).
Proof.
  split; [|split; [|split]].
  - intros str_ json_dumps. reflexivity.
  - intros json_dumps. repeat split; vm_compute; reflexivity.
  - intros CONFIG json_dumps resource_id model_name w.
    destruct (get_raises CONFIG json_dumps resource_id model_name w) as [e [He _]].
    now exists e.
  - intros json_dumps model_name resource_id k keys resource w. reflexivity.
Qed.

(** Listing the type after that [set] finds the resource id in the
    index, as [bytes], and looks its field names up under the [repr] of
    those bytes, where nothing is stored. *)
Example get_all_after_set json_dumps :
  formatted (Bytes "uuid-0") = "b'uuid-0'" /\
  fst (get_all (settings 3) json_dumps "Instance_"
         (snd (set (settings 3) str_of json_dumps an_instance
                   (unconnected always_up)))) =
  Raise (AttributeError "NoneType" "split").
Proof. split; vm_compute; reflexivity. Qed.

Example bytes_repr_quotes :
  bytes_repr "it's" = String "b" (String double_quote_char
                                    ("it's" ++ String double_quote_char "")) /\
  bytes_repr (String (ascii_of_nat 10) "a") = String "b" (String quote_char
                 (String backslash_char ("na" ++ String quote_char ""))) /\
  bytes_repr (String (ascii_of_nat 200) "") = String "b" (String quote_char
                 (String backslash_char ("xc8" ++ String quote_char ""))).
Proof. repeat split. Qed.

(** Through [ArestorModel] the connector is not even reached: [commit]
    calls [set] with one argument more than it takes. *)
Example commit_to_redis CONFIG json_dumps w :
  @ArestorModel.commit t (RedisConnector_Connector CONFIG json_dumps)
    Instance_ (w, state_of an_instance) =
  (Raise (TypeError (Msg "set() takes 2 positional arguments but 3 were given" [])),
   (w, state_of an_instance)).
Proof. reflexivity. Qed.

End ConnectorFacts.

(** ** Further properties of records *)

Module ModelMore.
Import Py model Scenarios Predicates DictFacts.
Import BaseModel.
Local Open Scope py_scope.

(** *** Reading back a write *)

(** X1. A field write that goes through is seen at once by the accessor
    of that field and by no accessor of a field stored under another
    key; the provisioning flag is not touched. *)
Theorem write_then_read field v self self' :
  __set__ field v self = (Ok tt, self') ->
  __get__ field self' = v /\
  (forall other, key other <> key field -> __get__ other self' = __get__ other self) /\
  _provision_done self' = _provision_done self.
Proof.
  intros Hset. apply ModelFacts.__set___ok_inv in Hset. subst self'.
  unfold __get__, dict_get_default. simpl. split; [|split].
  - now rewrite dict_get_set_eq.
  - intros other Hne. rewrite dict_get_set_ne by congruence. reflexivity.
  - reflexivity.
Qed.

Lemma write_then_read_witness :
  __get__ count_field
    (snd (__set__ count_field (VInt 7) (built Sample [("name", VStr "x")]))) = VInt 7 /\
  __get__ name_field
    (snd (__set__ count_field (VInt 7) (built Sample [("name", VStr "x")]))) = VStr "x".
Proof.
  destruct (write_then_read count_field (VInt 7) (built Sample [("name", VStr "x")])
              _ eq_refl) as [Hread [Hframe _]].
  split; [exact Hread|].
  refine (eq_trans (Hframe name_field _) eq_refl). discriminate.
Defined.

(** *** What commit leaves to do *)

(** X2. Since the pending changes are already in the data, [commit] on
    a record never changes the data, and so neither what the record
    dumps: all it does is to empty the pending changes. *)
Theorem commit_keeps_data self :
  changes_keyed self -> pending_in_data self ->
  commit self = (Ok tt, {| _data := _data self; _changes := [];
                           _cache := _cache self;
                           _provision_done := _provision_done self |}) /\
  forall meta include_read_only,
    dump meta include_read_only (snd (commit self)) = dump meta include_read_only self.
Proof.
  intros Hch Hsub.
  assert (Hdata : dict_update (_data self) (_changes self) = _data self).
  { apply dict_update_included. intros k v Hin. apply Hsub.
    now apply elem_dict_get. }
  rewrite ModelFacts.commit_eq, Hdata. split; [reflexivity|].
  intros meta include_read_only. reflexivity.
Qed.

Lemma commit_keeps_data_witness :
  _data (snd (commit (built Sample [("name", VStr "x")])))
  = [("count", VInt 0); ("name", VStr "x")] /\
  _changes (snd (commit (built Sample [("name", VStr "x")]))) = [].
Proof.
  assert (Hch : changes_keyed (built Sample [("name", VStr "x")])).
  { unfold changes_keyed. simpl. apply NoDup_ListNoDup.
    repeat constructor; simpl; intuition discriminate. }
  assert (Hsub : pending_in_data (built Sample [("name", VStr "x")])).
  { intros k v. simpl. destruct (String.eqb k "name") eqn:Hk; [|discriminate].
    apply String.eqb_eq in Hk. subst k. trivial. }
  destruct (commit_keeps_data _ Hch Hsub) as [-> _]. split; reflexivity.
Defined.

(** *** Names the schema does not have *)

Lemma staged_unnamed fields items : forall changes,
  (forall item, item ∈ items -> dict_get (fst item) fields = None) ->
  fold_left (stage fields) items changes = changes.
Proof.
  induction items as [|item items IH]; intros changes Hnone; [reflexivity|].
  simpl. unfold stage at 2. rewrite (Hnone item) by apply list_elem_of_here.
  apply IH. intros it Hin. apply Hnone. now apply list_elem_of_further.
Qed.

(** X3. [update] with a map that names no field of the schema, empty or
    not, returns without an error and leaves the record exactly as it
    was. *)
Theorem update_unknown_names meta fields self :
  changes_keyed self -> pending_in_data self ->
  (forall item, item ∈ _fields meta -> dict_get (fst item) fields = None) ->
  update meta fields self = (Ok tt, self).
Proof.
  intros Hch Hsub Hnone. rewrite ModelFacts.update_eq.
  destruct fields as [|kv fields]; [reflexivity|].
  unfold staged. rewrite staged_unnamed by exact Hnone.
  rewrite dict_update_included; [now destruct self|].
  intros k v Hin. apply Hsub. now apply elem_dict_get.
Qed.

Lemma update_unknown_names_witness :
  update (_meta Sample) [("colour", VStr "red")] saved = (Ok tt, saved).
Proof.
  apply update_unknown_names.
  - unfold changes_keyed. simpl. constructor.
  - intros k v. simpl. discriminate.
  - intros item Hin. simpl in Hin.
    apply elem_of_cons in Hin as [->|Hin]; [reflexivity|].
    apply elem_of_cons in Hin as [->|Hin]; [reflexivity|].
    now apply elem_of_nil in Hin.
Defined.

(** *** What the constructor reads *)

Lemma _set_fields_loop_agree fs : forall fields1 fields2 self,
  NoDup (map name fs) ->
  (forall f, f ∈ fs -> dict_get (name f) fields1 = dict_get (name f) fields2) ->
  bind (_set_fields_loop fs fields1) (fun _ => ret tt) self =
  bind (_set_fields_loop fs fields2) (fun _ => ret tt) self.
Proof.
  induction fs as [|f0 fs IH]; intros fields1 fields2 self Hnames Hagree; [reflexivity|].
  simpl in Hnames. apply NoDup_cons in Hnames as [Hfresh Hnames].
  assert (Hv : dict_get_default (name f0) fields1 = dict_get_default (name f0) fields2).
  { unfold dict_get_default. now rewrite (Hagree f0) by apply list_elem_of_here. }
  assert (Hrest : forall s1,
             bind (_set_fields_loop fs (dict_remove (name f0) fields1)) (fun _ => ret tt) s1 =
             bind (_set_fields_loop fs (dict_remove (name f0) fields2)) (fun _ => ret tt) s1).
  { intros s1. apply IH; [exact Hnames|]. intros f Hin.
    assert (Hne : name f0 <> name f).
    { intros Heq. apply Hfresh. rewrite Heq. now apply elem_of_map_intro. }
    rewrite !dict_get_remove_ne by exact Hne.
    apply Hagree. now apply list_elem_of_further. }
  simpl. unfold bind in *. unfold get_state. rewrite Hv.
  destruct (negb (dict_contains (key f0) (_data self))
            || truthy (dict_get_default (name f0) fields2)).
  - destruct (__set__ f0 (dict_get_default (name f0) fields2) self) as [[[]|e] s1];
      [apply Hrest | reflexivity].
  - unfold ret at 1 3. apply Hrest.
Qed.

(** The keyword [self] is the one keyword the constructor refuses. *)
Lemma bind_keywords_self {S} fields (s : S) :
  bind_keywords "__init__" ["self"] fields s =
  if dict_contains "self" fields
  then (Raise (TypeError (Msg "%s() got multiple values for argument %r"
                              ["__init__"; "self"])), s)
  else (Ok tt, s).
Proof.
  unfold bind_keywords, dict_contains, dict_keys.
  induction fields as [|[k v] fields IH]; [reflexivity|].
  cbn [map fst find existsb dict_get].
  rewrite orb_false_r, (String.eqb_sym "self" k).
  destruct (String.eqb_spec k "self") as [->|Hne]; [reflexivity | exact IH].
Qed.

(** X4. The constructor reads its keyword arguments only under the
    names of the schema's fields and under the name [self], its own
    first parameter, which a call cannot give as a keyword: with a
    keyword [self] the call raises [TypeError] before any default
    factory is called, and two maps that agree on having it and under
    the names of the fields build the same record (or raise the same
    exception), so the other names the schema does not have are dropped
    without an error. *)
Theorem constructor_reads_schema_names meta fields1 fields2 tick :
  distinct_names meta ->
  dict_contains "self" fields1 = dict_contains "self" fields2 ->
  (forall f, f ∈ dict_values (_fields meta) ->
             dict_get (name f) fields1 = dict_get (name f) fields2) ->
  __init__ meta fields1 tick = __init__ meta fields2 tick /\
  (dict_contains "self" fields1 = true ->
   __init__ meta fields1 tick =
   (Raise (TypeError (Msg "%s() got multiple values for argument %r"
                          ["__init__"; "self"])), tick)).
Proof.
  intros Hnames Hself Hagree. unfold __init__, bind.
  rewrite !bind_keywords_self, <- Hself.
  destruct (dict_contains "self" fields1); [now split|].
  split; [|discriminate].
  destruct (get_defaults meta tick) as [[defaults|e] tick1]; [|reflexivity].
  unfold _set_fields.
  now rewrite (_set_fields_loop_agree _ fields1 fields2 _ Hnames Hagree).
Qed.

Lemma constructor_reads_schema_names_witness :
  __init__ (_meta Sample) [("name", VStr "x"); ("colour", VStr "red")] 0 =
  __init__ (_meta Sample) [("name", VStr "x")] 0 /\
  __init__ (_meta Sample) [("name", VStr "x"); ("self", VStr "me")] 0 =
  (Raise (TypeError (Msg "%s() got multiple values for argument %r"
                         ["__init__"; "self"])), 0).
Proof.
  assert (Hnames : distinct_names (_meta Sample)).
  { unfold distinct_names. simpl. apply NoDup_ListNoDup.
    repeat constructor; simpl; intuition discriminate. }
  split.
  - apply (constructor_reads_schema_names (_meta Sample)
             [("name", VStr "x"); ("colour", VStr "red")] [("name", VStr "x")] 0
             Hnames eq_refl).
    intros f Hin. simpl in Hin.
    apply elem_of_cons in Hin as [->|Hin]; [reflexivity|].
    apply elem_of_cons in Hin as [->|Hin]; [reflexivity|].
    now apply elem_of_nil in Hin.
  - exact (proj2 (constructor_reads_schema_names (_meta Sample)
                    [("name", VStr "x"); ("self", VStr "me")]
                    [("name", VStr "x"); ("self", VStr "me")] 0
                    Hnames eq_refl (fun f Hin => eq_refl)) eq_refl).
Defined.

(** A field the loop passes over keeps what is stored under its key. *)
Lemma _set_fields_loop_skipped fs : forall fields self rest r,
  _set_fields_loop fs fields self = (Ok rest, r) ->
  NoDup (map name fs) -> NoDup (map key fs) ->
  forall field, field ∈ fs ->
    negb (dict_contains (key field) (_data self))
    || truthy (dict_get_default (name field) fields) = false ->
    dict_get (key field) (_changes r) = dict_get (key field) (_changes self) /\
    dict_get (key field) (_data r) = dict_get (key field) (_data self).
Proof.
  induction fs as [|f0 fs IH]; intros fields self rest r Hrun Hnames Hkeys field Hin Hcond.
  - now apply elem_of_nil in Hin.
  - pose proof Hnames as Hnames0. pose proof Hkeys as Hkeys0.
    simpl in Hnames, Hkeys.
    apply NoDup_cons in Hnames as [Hname0 Hnames].
    apply NoDup_cons in Hkeys as [Hkey0 Hkeys].
    simpl in Hrun. unfold bind, get_state in Hrun.
    apply elem_of_cons in Hin as [->|Hin].
    + rewrite Hcond in Hrun. unfold ret in Hrun.
      destruct (ModelFacts._set_fields_loop_assigned _ _ _ _ _ Hrun Hnames Hkeys)
        as [Hother _].
      now apply Hother.
    + assert (Hn : name f0 <> name field).
      { intros Heq. apply Hname0. rewrite Heq. now apply elem_of_map_intro. }
      assert (Hk : key f0 <> key field).
      { intros Heq. apply Hkey0. rewrite Heq. now apply elem_of_map_intro. }
      assert (Hv : dict_get_default (name field) (dict_remove (name f0) fields) =
                   dict_get_default (name field) fields).
      { unfold dict_get_default. now rewrite dict_get_remove_ne. }
      destruct (negb (dict_contains (key f0) (_data self))
                || truthy (dict_get_default (name f0) fields)).
      * destruct (__set__ f0 (dict_get_default (name f0) fields) self)
          as [[[]|e] s1] eqn:Hset; [|discriminate].
        apply ModelFacts.__set___ok_inv in Hset. subst s1.
        destruct (IH _ _ _ _ Hrun Hnames Hkeys field Hin) as [Hc Hd].
        { rewrite Hv. unfold dict_contains. simpl.
          rewrite dict_get_set_ne by exact Hk. exact Hcond. }
        rewrite Hc, Hd. simpl. now rewrite !dict_get_set_ne by exact Hk.
      * unfold ret in Hrun. apply (IH _ _ _ _ Hrun Hnames Hkeys field Hin).
        now rewrite Hv.
Qed.

Lemma default_kept meta fields tick r tick' defaults tick1 field :
  __init__ meta fields tick = (Ok r, tick') ->
  get_defaults meta tick = (Ok defaults, tick1) ->
  distinct_names meta -> distinct_keys meta ->
  field ∈ dict_values (_fields meta) ->
  dict_contains (key field) defaults = true ->
  truthy (dict_get_default (name field) fields) = false ->
  dict_get (key field) (_data r) = dict_get (key field) defaults /\
  dict_get (key field) (_changes r) = None.
Proof.
  unfold __init__, bind. ModelFacts.keywords_bound fields tick.
  intros Hinit Hdef Hnames Hkeys Hin Hhas Hfalse.
  rewrite Hdef in Hinit. unfold _set_fields, bind in Hinit.
  destruct (_set_fields_loop (dict_values (_fields meta)) fields
              {| _data := defaults; _changes := []; _cache := [];
                 _provision_done := false |}) as [[rest|e] self'] eqn:Hloop;
    unfold ret, raise in Hinit; [|discriminate].
  injection Hinit as <- <-. simpl.
  destruct (_set_fields_loop_skipped _ _ _ _ _ Hloop Hnames Hkeys field Hin) as [Hc Hd].
  - simpl. now rewrite Hhas, Hfalse.
  - now split.
Qed.

(** X5. A default is only overridden by a true value: when a field has
    a default and the constructor is given [0], the empty string, [False]
    or [None] for it (or nothing), the record keeps the default and the
    field is not pending. *)
Theorem default_survives_false_value meta fields tick r tick' defaults tick1 field :
  __init__ meta fields tick = (Ok r, tick') ->
  get_defaults meta tick = (Ok defaults, tick1) ->
  distinct_names meta -> distinct_keys meta ->
  field ∈ dict_values (_fields meta) ->
  dict_contains (key field) defaults = true ->
  truthy (dict_get_default (name field) fields) = false ->
  dict_get (key field) (_data r) = dict_get (key field) defaults /\
  dict_get (key field) (_changes r) = None.
Proof. apply default_kept. Qed.

Lemma default_survives_false_value_witness :
  dict_get "size" (_data (built Paged [("page_size", VInt 0)])) = Some (VInt 20) /\
  dict_get "size" (_changes (built Paged [("page_size", VInt 0)])) = None.
Proof.
  refine (default_survives_false_value (_meta Paged) [("page_size", VInt 0)] 0
            (built Paged [("page_size", VInt 0)]) 0 [("size", VInt 20)] 0 size_field
            eq_refl eq_refl _ _ _ eq_refl eq_refl).
  - unfold distinct_names. simpl. apply NoDup_singleton.
  - unfold distinct_keys. simpl. apply NoDup_singleton.
  - apply list_elem_of_here.
Defined.

(** A stored record type also refuses the keyword [connector], the
    second parameter of its constructor. *)
Example stored_constructor_keywords :
  ArestorModel.__init__ Instance_ [("hostname", VStr "h"); ("connector", VNone)] 0 =
  (Raise (TypeError (Msg "%s() got multiple values for argument %r"
                         ["__init__"; "connector"])), 0) /\
  ArestorModel.__init__ Instance_ [("hostname", VStr "h")] 0 =
  (Ok (built Instance_ [("hostname", VStr "h")]), 1).
Proof. split; reflexivity. Qed.

(** *** Raw data and dumps *)

Lemma process_raw_data_loop_shape raw fs : forall raw' content,
  NoDup (dict_keys fs) -> NoDup (map key (dict_values fs)) ->
  (forall k, k ∈ dict_keys fs -> dict_get k content = None) ->
  (forall item, item ∈ fs ->
     dict_get_default (key (snd item)) raw' = dict_get_default (key (snd item)) raw) ->
  process_raw_data_loop fs raw' content =
  (content ++ map (fun item => (fst item, dict_get_default (key (snd item)) raw)) fs)%list.
Proof.
  induction fs as [|[n0 f0] fs IH]; intros raw' content Hnames Hkeys Hfresh Hraw.
  - simpl. now rewrite app_nil_r.
  - simpl in Hnames, Hkeys.
    apply NoDup_cons in Hnames as [Hn0 Hnames].
    apply NoDup_cons in Hkeys as [Hk0 Hkeys].
    pose proof (Hraw (n0, f0) (list_elem_of_here _ _)) as Hhead. simpl in Hhead.
    simpl. rewrite Hhead.
    rewrite dict_set_fresh by (apply Hfresh, list_elem_of_here).
    rewrite IH; [now rewrite <- app_assoc | exact Hnames | exact Hkeys | |].
    + intros k Hk. apply dict_get_app_None. split.
      * apply Hfresh. now apply list_elem_of_further.
      * simpl. destruct (String.eqb_spec k n0) as [->|]; [contradiction | reflexivity].
    + intros item Hin. rewrite <- (Hraw item) by now apply list_elem_of_further.
      unfold dict_get_default. rewrite dict_get_remove_ne; [reflexivity|].
      intros Heq. apply Hk0. rewrite Heq.
      apply (elem_of_map_intro key). now apply (elem_of_map_intro snd).
Qed.

(** X6. [process_raw_data] returns one entry per field of the schema,
    in the order of the schema and under the field's name: what the raw
    data has under the field's key, or [None]; raw entries under other
    keys are dropped. *)
Theorem process_raw_data_shape meta raw :
  NoDup (dict_keys (_fields meta)) -> distinct_keys meta ->
  process_raw_data meta raw =
  map (fun item => (fst item, dict_get_default (key (snd item)) raw)) (_fields meta).
Proof.
  intros Hnames Hkeys. unfold process_raw_data.
  now rewrite (process_raw_data_loop_shape raw).
Qed.

Lemma process_raw_data_shape_witness :
  process_raw_data (_meta Labelled) [("lbl", VStr "x"); ("colour", VStr "red")] =
  [("label", VStr "x")].
Proof.
  rewrite process_raw_data_shape; [reflexivity | |].
  - simpl. apply NoDup_singleton.
  - unfold distinct_keys. simpl. apply NoDup_singleton.
Defined.

Lemma dump_step_other iro self k fs : forall content,
  k ∉ map key fs ->
  dict_get k (fold_left (dump_step iro self) fs content) = dict_get k content.
Proof.
  induction fs as [|f0 fs IH]; intros content Hk; [reflexivity|].
  simpl in Hk. apply not_elem_of_cons in Hk as [Hk0 Hk].
  simpl. rewrite IH by exact Hk. unfold dump_step.
  destruct (is_read_only f0 && negb iro); [reflexivity|].
  destruct (negb (is_required f0)
            && is_None (_unpack (dict_get_default (key f0) (_data self))));
    [reflexivity|].
  apply dict_get_set_ne. congruence.
Qed.

Lemma dump_step_field iro self field fs : forall content,
  NoDup (map key fs) -> field ∈ fs ->
  dict_get (key field) content = None ->
  dict_get (key field) (fold_left (dump_step iro self) fs content) =
  dumped iro self field.
Proof.
  induction fs as [|f0 fs IH]; intros content Hkeys Hin Hfresh.
  - now apply elem_of_nil in Hin.
  - simpl in Hkeys. apply NoDup_cons in Hkeys as [Hk0 Hkeys]. simpl.
    apply elem_of_cons in Hin as [->|Hin].
    + rewrite dump_step_other by exact Hk0. unfold dump_step, dumped, __get__.
      destruct (is_read_only f0 && negb iro); [exact Hfresh|].
      destruct (negb (is_required f0)
                && is_None (_unpack (dict_get_default (key f0) (_data self))));
        [exact Hfresh | apply dict_get_set_eq].
    + apply IH; [exact Hkeys | exact Hin |].
      assert (Hne : key f0 <> key field).
      { intros Heq. apply Hk0. rewrite Heq. now apply elem_of_map_intro. }
      unfold dump_step. destruct (is_read_only f0 && negb iro); [exact Hfresh|].
      destruct (negb (is_required f0)
                && is_None (_unpack (dict_get_default (key f0) (_data self))));
        [exact Hfresh | now rewrite dict_get_set_ne].
Qed.

(** X7. What [dump] holds: under the key of a field, the unpacked
    current value, except that a read-only field is left out when
    read-only fields are excluded and an optional field is left out when
    its value is [None] (a required one is dumped as [None]); under any
    other key, nothing. *)
Theorem dump_lookup meta include_read_only self :
  distinct_keys meta ->
  (forall field, field ∈ dict_values (_fields meta) ->
     dict_get (key field) (dump meta include_read_only self) =
     dumped include_read_only self field) /\
  (forall k, k ∉ map key (dict_values (_fields meta)) ->
     dict_get k (dump meta include_read_only self) = None).
Proof.
  intros Hkeys. unfold dump. split.
  - intros field Hin. now apply dump_step_field.
  - intros k Hk. now rewrite dump_step_other.
Qed.

Lemma dump_lookup_witness :
  dict_get "serial" (dump (_meta Sealed) false (built Sealed [("serial", VStr "s-1")]))
  = None /\
  dict_get "serial" (dump (_meta Sealed) true (built Sealed [("serial", VStr "s-1")]))
  = Some (VStr "s-1").
Proof.
  assert (Hkeys : distinct_keys (_meta Sealed))
    by (unfold distinct_keys; simpl; apply NoDup_singleton).
  split.
  - exact (proj1 (dump_lookup (_meta Sealed) false _ Hkeys) serial_field
                 (list_elem_of_here _ _)).
  - exact (proj1 (dump_lookup (_meta Sealed) true _ Hkeys) serial_field
                 (list_elem_of_here _ _)).
Defined.

(** *** Unpacking *)

(** X8. On plain values [_unpack] changes nothing: the lists and
    dictionaries it rebuilds, at any depth, are the ones it was given.
    So [dump] hands out the stored values as they are. *)
Theorem _unpack_same : forall v, well_keyed v -> _unpack v = v.
Proof.
  fix IH 1. intros [ | b | n | s | l | d]; simpl; try reflexivity.
  - intros Hl. f_equal.
    enough (Hloop : forall acc,
      (fix loop (items container_list : list value) {struct items} : list value :=
         match items with
         | [] => container_list
         | item :: rest => loop rest (container_list ++ [_unpack item])%list
         end) l acc = (acc ++ l)%list) by apply (Hloop []).
    induction l as [|x l IHl]; intros acc.
    + now rewrite app_nil_r.
    + destruct Hl as [Hx Hl]. rewrite (IH x Hx), IHl by exact Hl.
      now rewrite <- app_assoc.
  - intros [Hkeys Hd]. f_equal.
    enough (Hloop : forall acc,
      (forall k, k ∈ dict_keys d -> dict_get k acc = None) ->
      (fix loop (items : list (string * value)) (container_dict : pydict value)
           {struct items} : pydict value :=
         match items with
         | [] => container_dict
         | (k, item) :: rest => loop rest (dict_set k (_unpack item) container_dict)
         end) d acc = (acc ++ d)%list) by (apply (Hloop []); reflexivity).
    induction d as [|[k x] d IHd]; intros acc Hfresh.
    + now rewrite app_nil_r.
    + destruct Hd as [Hx Hd]. simpl in Hkeys.
      apply NoDup_cons in Hkeys as [Hk Hkeys].
      rewrite (IH x Hx), dict_set_fresh by (apply Hfresh, list_elem_of_here).
      rewrite IHd; [now rewrite <- app_assoc | exact Hkeys | exact Hd |].
      intros k' Hk'. apply dict_get_app_None. split.
      * apply Hfresh. now apply list_elem_of_further.
      * simpl. destruct (String.eqb_spec k' k) as [->|]; [contradiction | reflexivity].
Qed.

Lemma _unpack_same_witness :
  _unpack (VDict [("tags", VList [VStr "a"; VDict [("n", VInt 1)]]); ("up", VBool true)])
  = VDict [("tags", VList [VStr "a"; VDict [("n", VInt 1)]]); ("up", VBool true)].
Proof.
  apply _unpack_same. simpl.
  repeat split; try apply NoDup_nil_2; try apply NoDup_singleton.
  apply NoDup_ListNoDup. repeat constructor; simpl; intuition discriminate.
Defined.

(** *** Default factories *)

(** A run that returns has called every factory, each at its own turn,
    and every one of them returned. *)
Lemma call_defaults_ok cs : forall defaults tick d tick',
  call_defaults cs defaults tick = (Ok d, tick') ->
  tick' = tick + length cs /\
  (forall k, dict_get k cs = None -> dict_get k d = dict_get k defaults) /\
  (forall i k f, cs !! i = Some (k, f) ->
     exists v, f (tick + i) = Ok v /\
               (NoDup (dict_keys cs) -> dict_get k d = Some v)).
Proof.
  induction cs as [|[k0 f0] cs IH]; intros defaults tick d tick' Hrun.
  - injection Hrun as <- <-. simpl. rewrite Nat.add_0_r. split; [reflexivity|].
    split; [reflexivity|]. intros i k f Hi. discriminate.
  - simpl in Hrun. unfold bind, call_default in Hrun.
    destruct (f0 tick) as [v0|e0] eqn:Hf0; [|discriminate].
    destruct (IH _ _ _ _ Hrun) as [Htick [Hlit Hfac]].
    split; [simpl; lia|]. split.
    + intros k Hk. simpl in Hk.
      destruct (String.eqb_spec k k0) as [Heq|Hne]; [discriminate|].
      rewrite (Hlit k Hk). apply dict_get_set_ne. congruence.
    + intros i k f Hi. destruct i as [|i]; simpl in Hi.
      * injection Hi as <- <-. rewrite Nat.add_0_r. exists v0.
        split; [exact Hf0|]. intros Hnd. apply NoDup_cons in Hnd as [Hk0 _].
        rewrite Hlit by now apply dict_get_None.
        apply dict_get_set_eq.
      * destruct (Hfac i k f Hi) as [v [Hv Hget]]. exists v.
        replace (tick + S i) with (S tick + i) by lia. split; [exact Hv|].
        intros Hnd. apply NoDup_cons in Hnd as [_ Hnd]. now apply Hget.
Qed.

(** A run that raises stopped at the first factory that raised: the
    factories before it returned, those after it were not called. *)
Lemma call_defaults_raise cs : forall defaults tick e tick',
  call_defaults cs defaults tick = (Raise e, tick') ->
  exists i k f,
    cs !! i = Some (k, f) /\ f (tick + i) = Raise e /\ tick' = tick + S i /\
    (forall j k' f', j < i -> cs !! j = Some (k', f') ->
                     exists v, f' (tick + j) = Ok v).
Proof.
  induction cs as [|[k0 f0] cs IH]; intros defaults tick e tick' Hrun;
    [discriminate|].
  simpl in Hrun. unfold bind, call_default in Hrun.
  destruct (f0 tick) as [v0|e0] eqn:Hf0.
  - destruct (IH _ _ _ _ Hrun) as [i [k [f [Hi [Hf [Htick Hbefore]]]]]].
    exists (S i), k, f. replace (tick + S i) with (S tick + i) by lia.
    split; [exact Hi|]. split; [exact Hf|]. split; [lia|].
    intros j k' f' Hj Hlook. destruct j as [|j]; simpl in Hlook.
    + injection Hlook as <- <-. rewrite Nat.add_0_r. now exists v0.
    + replace (tick + S j) with (S tick + j) by lia.
      apply (Hbefore j k' f'); [lia | exact Hlook].
  - injection Hrun as <- <-. exists 0, k0, f0. rewrite Nat.add_0_r.
    split; [reflexivity|]. split; [exact Hf0|]. split; [lia|].
    intros j k' f' Hj. lia.
Qed.

(** When every factory returns at its turn, so does the run. *)
Lemma call_defaults_returns cs : forall defaults tick,
  (forall i k f, cs !! i = Some (k, f) -> exists v, f (tick + i) = Ok v) ->
  exists d, call_defaults cs defaults tick = (Ok d, tick + length cs).
Proof.
  intros defaults tick Hall.
  destruct (call_defaults cs defaults tick) as [[d|e] tick'] eqn:Hrun.
  - exists d. now destruct (call_defaults_ok _ _ _ _ _ Hrun) as [-> _].
  - destruct (call_defaults_raise _ _ _ _ _ Hrun) as [i [k [f [Hi [Hf _]]]]].
    destruct (Hall i k f Hi) as [v Hv]. congruence.
Qed.

(** X9. Materialising the defaults calls the default factories one after
    the other, each at its own turn, until one raises.  When it returns,
    every factory was called once and returned: the count of factory
    calls has grown by the number of factories, the entry of a factory
    is its result, and the literal defaults are kept wherever no factory
    has the same key.  When it raises, the exception is that of the
    first factory that raised, which is the last one called.  It returns
    whenever every factory does. *)
Theorem get_defaults_calls meta tick :
  match get_defaults meta tick with
  | (Ok d, tick') =>
      tick' = tick + length (_default_callables meta) /\
      (forall k, dict_get k (_default_callables meta) = None ->
                 dict_get k d = dict_get k (_defaults meta)) /\
      (forall i k f, _default_callables meta !! i = Some (k, f) ->
         exists v, f (tick + i) = Ok v /\
                   (NoDup (dict_keys (_default_callables meta)) ->
                    dict_get k d = Some v))
  | (Raise e, tick') =>
      exists i k f,
        _default_callables meta !! i = Some (k, f) /\
        f (tick + i) = Raise e /\ tick' = tick + S i /\
        (forall j k' f', j < i -> _default_callables meta !! j = Some (k', f') ->
                         exists v, f' (tick + j) = Ok v)
  end /\
  ((forall i k f, _default_callables meta !! i = Some (k, f) ->
                  exists v, f (tick + i) = Ok v) ->
   exists d, get_defaults meta tick = (Ok d, tick + length (_default_callables meta))).
Proof.
  split; [|apply call_defaults_returns].
  unfold get_defaults.
  destruct (call_defaults (_default_callables meta) (_defaults meta) tick)
    as [[d|e] tick'] eqn:Hrun.
  - now apply call_defaults_ok in Hrun.
  - now apply call_defaults_raise in Hrun.
Qed.

(** On the ticket schema the second of three factories raises: the
    first was called, the third is not, and no record is built. *)
Example ticket_defaults_raise :
  get_defaults (_meta Ticket) 5 = (Raise (IndexError (Msg "pop from empty list" [])), 7) /\
  __init__ (_meta Ticket) [] 5 = (Raise (IndexError (Msg "pop from empty list" [])), 7).
Proof. split; reflexivity. Qed.

Lemma get_defaults_calls_witness :
  (exists i k f,
     _default_callables (_meta Ticket) !! i = Some (k, f) /\
     f (5 + i) = Raise (IndexError (Msg "pop from empty list" [])) /\ 7 = 5 + S i /\
     (forall j k' f', j < i -> _default_callables (_meta Ticket) !! j = Some (k', f') ->
                      exists v, f' (5 + j) = Ok v)) /\
  (exists d, get_defaults (_meta Instance_) 5 = (Ok d, 6)).
Proof.
  split.
  - exact (proj1 (get_defaults_calls (_meta Ticket) 5)).
  - apply (proj2 (get_defaults_calls (_meta Instance_) 5)).
    intros [|i] k f Hi; simpl in Hi; [|discriminate].
    injection Hi as <- <-. now eexists.
Defined.

Lemma __init___ticks meta fields tick r tick' :
  __init__ meta fields tick = (Ok r, tick') ->
  tick' = tick + length (_default_callables meta).
Proof.
  unfold __init__, bind. ModelFacts.keywords_bound fields tick.
  destruct (get_defaults meta tick) as [[d|e] tick1] eqn:Hd; [|discriminate].
  apply call_defaults_ok in Hd as [-> _].
  match goal with |- context [_set_fields meta fields ?s] =>
    destruct (_set_fields meta fields s) as [[[]|e] self'] end;
    unfold ret, raise; now intros [= _ <-].
Qed.

(** The value a record gets from a factory when the constructor is
    given nothing true for the field. *)
Lemma factory_default_value meta field f i fields tick r tick' :
  __init__ meta fields tick = (Ok r, tick') ->
  distinct_names meta -> distinct_keys meta ->
  NoDup (dict_keys (_default_callables meta)) ->
  field ∈ dict_values (_fields meta) ->
  _default_callables meta !! i = Some (key field, f) ->
  truthy (dict_get_default (name field) fields) = false ->
  f (tick + i) = Ok (__get__ field r).
Proof.
  intros Hinit Hnames Hkeys Hnd Hin Hi Hfalse.
  destruct (get_defaults meta tick) as [[d|e] tick1] eqn:Hd;
    [|revert Hinit; unfold __init__, bind; ModelFacts.keywords_bound fields tick;
      rewrite Hd; discriminate].
  destruct (call_defaults_ok _ _ _ _ _ Hd) as [_ [_ Hfac]].
  destruct (Hfac i (key field) f Hi) as [v [Hv Hget]]. specialize (Hget Hnd).
  destruct (default_kept _ _ _ _ _ _ _ field Hinit Hd Hnames Hkeys Hin)
    as [Hdata _]; [unfold dict_contains; now rewrite Hget | exact Hfalse |].
  unfold __get__, dict_get_default. now rewrite Hdata, Hget.
Qed.

(** X10. Records built one after the other do not share a
    factory-made default: when the factory gives different results at
    different turns (as a fresh [uuid1] does for [resource_id]) and
    neither constructor call overrides the field, the two records differ
    in it. *)
Theorem successive_records_differ meta field f i fields1 fields2 tick r1 tick1 r2 tick2 :
  (forall a b, f a = f b -> a = b) ->
  __init__ meta fields1 tick = (Ok r1, tick1) ->
  __init__ meta fields2 tick1 = (Ok r2, tick2) ->
  distinct_names meta -> distinct_keys meta ->
  NoDup (dict_keys (_default_callables meta)) ->
  field ∈ dict_values (_fields meta) ->
  _default_callables meta !! i = Some (key field, f) ->
  truthy (dict_get_default (name field) fields1) = false ->
  truthy (dict_get_default (name field) fields2) = false ->
  __get__ field r1 <> __get__ field r2.
Proof.
  intros Hinj Hinit1 Hinit2 Hnames Hkeys Hnd Hin Hi Hfalse1 Hfalse2.
  pose proof (factory_default_value _ _ _ _ _ _ _ _
                Hinit1 Hnames Hkeys Hnd Hin Hi Hfalse1) as H1.
  pose proof (factory_default_value _ _ _ _ _ _ _ _
                Hinit2 Hnames Hkeys Hnd Hin Hi Hfalse2) as H2.
  apply __init___ticks in Hinit1. intros Heq. rewrite <- Heq, <- H1 in H2.
  apply Hinj in H2. apply lookup_lt_Some in Hi. lia.
Qed.

Lemma uuid_of_tick_inj a b :
  @Ok value (VStr (uuid_of_tick a)) = Ok (VStr (uuid_of_tick b)) -> a = b.
Proof.
  unfold uuid_of_tick. intros [= Heq].
  change (pretty a = pretty b) in Heq. now apply (inj pretty) in Heq.
Qed.

Lemma successive_records_differ_witness :
  __get__ (ArestorModel.resource_id uuid_of_tick) (built Instance_ [("hostname", VStr "h")])
  <> __get__ (ArestorModel.resource_id uuid_of_tick)
       (match __init__ (_meta Instance_) [("hostname", VStr "g")] 1 with
        | (Ok r, _) => r
        | (Raise _, _) => blank
        end).
Proof.
  refine (successive_records_differ (_meta Instance_)
            (ArestorModel.resource_id uuid_of_tick)
            (fun tick => Ok (VStr (uuid_of_tick tick))) 0
            [("hostname", VStr "h")] [("hostname", VStr "g")] 0 _ 1 _ 2
            uuid_of_tick_inj eq_refl eq_refl _ _ _ _ eq_refl eq_refl eq_refl).
  - unfold distinct_names. simpl. apply NoDup_ListNoDup.
    repeat constructor; simpl; intuition discriminate.
  - unfold distinct_keys. simpl. apply NoDup_ListNoDup.
    repeat constructor; simpl; intuition discriminate.
  - simpl. apply NoDup_singleton.
  - simpl. apply list_elem_of_further, list_elem_of_here.
Defined.

(** *** Registering fields *)

Lemma dict_remove_set_fresh {V} k (v : V) d :
  dict_get k d = None -> dict_remove k (dict_set k v d) = d.
Proof.
  induction d as [|[k' v'] d IH]; simpl.
  - now rewrite String.eqb_refl.
  - destruct (String.eqb_spec k k') as [->|Hne]; [discriminate|].
    intros Hd. simpl. destruct (String.eqb_spec k k'); [contradiction|].
    now rewrite IH.
Qed.

Lemma dict_remove_absent {V} k (d : pydict V) : dict_get k d = None -> dict_remove k d = d.
Proof.
  induction d as [|[k' v'] d IH]; simpl; [reflexivity|].
  destruct (String.eqb_spec k k'); [discriminate|]. intros Hd. now rewrite IH.
Qed.

(** X11. Removing a field that was just added gives back the options
    as they were, provided the field is stored under its own name and
    nothing was registered under that name before: the field, and the
    default it brought, are gone again. *)
Theorem remove_added_field field o :
  key field = name field ->
  dict_get (name field) (_fields o) = None ->
  dict_get (name field) (_defaults o) = None ->
  dict_get (name field) (_default_callables o) = None ->
  remove_field (name field) (add_field field o) = o.
Proof.
  intros Hkey Hfield Hlit Hfac. unfold add_field.
  assert (Hrem : remove_field (name field) o = o)
    by (unfold remove_field; now rewrite Hfield).
  rewrite Hrem, Hkey.
  destruct (default field) as [[ | b | n | s | l | d]|f] eqn:Hdef;
    unfold remove_field; simpl; rewrite dict_get_set_eq, Hdef; simpl;
    rewrite ?dict_remove_set_fresh by assumption; now destruct o.
Qed.

Lemma remove_added_field_witness :
  remove_field "count" (add_field count_field (_meta Labelled)) = _meta Labelled.
Proof. exact (remove_added_field count_field (_meta Labelled) eq_refl eq_refl eq_refl eq_refl). Defined.

(** *** Inheriting the resource id *)

Lemma fold_register_last attrs attr cls0 :
  fold_left register (attrs ++ [attr])%list cls0 =
  register (fold_left register attrs cls0) attr.
Proof. now rewrite fold_left_app. Qed.

(** X12. Every record type declared on top of [ArestorModel] without a
    [resource_id] attribute of its own has the inherited [resource_id]
    field, whatever other fields it declares: the field is in its schema
    and among its descriptors, and its factory among the default
    factories. *)
Theorem resource_id_inherited uuid1 cname attrs :
  dict_contains "resource_id" attrs = false ->
  dict_get "resource_id" (_fields (_meta (__new__ cname [ArestorModel.cls uuid1] attrs)))
  = Some (ArestorModel.resource_id uuid1) /\
  dict_get "resource_id" (descriptors (__new__ cname [ArestorModel.cls uuid1] attrs))
  = Some (ArestorModel.resource_id uuid1) /\
  is_Some (dict_get "resource_id"
             (_default_callables (_meta (__new__ cname [ArestorModel.cls uuid1] attrs)))).
Proof.
  intros Hown.
  assert (Hcls : exists below,
             __new__ cname [ArestorModel.cls uuid1] attrs =
             register below ("resource_id", ArestorModel.resource_id uuid1)).
  { eexists. unfold __new__. simpl fold_left at 2.
    unfold inherit_base. simpl. rewrite Hown.
    unfold dict_contains in Hown.
    destruct (dict_get "resource_id" attrs) eqn:Hget; [discriminate|].
    rewrite dict_set_fresh by exact Hget. apply fold_register_last. }
  destruct Hcls as [below ->].
  unfold register. simpl. split; [|split].
  - apply dict_get_set_eq.
  - apply dict_get_set_eq.
  - rewrite dict_get_set_eq. now eexists.
Qed.

Lemma resource_id_inherited_witness :
  dict_get "resource_id" (_fields (_meta Instance_))
  = Some (ArestorModel.resource_id uuid_of_tick).
Proof.
  exact (proj1 (resource_id_inherited uuid_of_tick "Instance_"
                  [("hostname", hostname_field)] eq_refl)).
Defined.

(** *** What validate reports *)

(** X27. [validate] leaves the record as it is.  It returns when
    [_data] holds something other than [None] under the name of every
    required field, and otherwise raises the error that names the first
    required field, in schema order, for which it does not. *)
Theorem validate_outcome meta self :
  snd (validate meta self) = self /\
  match fst (validate meta self) with
  | Ok _ =>
      forall item, item ∈ _fields meta -> is_required (snd item) = true ->
                   dict_get_default (name (snd item)) (_data self) <> VNone
  | Raise e =>
      exists before item after,
        _fields meta = (before ++ item :: after)%list /\
        e = DataProcessingError
              (Msg "The required field %(field)r is missing." [fst item]) /\
        is_required (snd item) = true /\
        dict_get_default (name (snd item)) (_data self) = VNone /\
        forall earlier, earlier ∈ before -> is_required (snd earlier) = true ->
                        dict_get_default (name (snd earlier)) (_data self) <> VNone
  end.
Proof.
  unfold validate. induction (_fields meta) as [|item fs [IHs IHr]].
  - split; [reflexivity|]. simpl. intros item Hin. now apply elem_of_nil in Hin.
  - simpl. unfold bind, get_state.
    destruct (is_required (snd item)) eqn:Hreq; simpl.
    + destruct (is_None (dict_get_default (name (snd item)) (_data self))) eqn:Hnone.
      * split; [reflexivity|]. simpl. exists [], item, fs.
        repeat split; auto.
        -- now destruct (dict_get_default (name (snd item)) (_data self)).
        -- intros earlier Hin. now apply elem_of_nil in Hin.
      * simpl. split; [exact IHs|].
        destruct (fst (for_each fs _ self)) as [[]|e].
        -- intros it Hin Hr. apply elem_of_cons in Hin as [->|Hin]; [|now apply IHr].
           intros Hv. now rewrite Hv in Hnone.
        -- destruct IHr as [before [it [after [Heq [He [Hr [Hv Hearlier]]]]]]].
           exists (item :: before), it, after. rewrite Heq.
           repeat split; auto. intros earlier Hin Hre.
           apply elem_of_cons in Hin as [->|Hin]; [|now apply Hearlier].
           intros Hv'. now rewrite Hv' in Hnone.
    + split; [exact IHs|].
      destruct (fst (for_each fs _ self)) as [[]|e].
      * intros it Hin Hr. apply elem_of_cons in Hin as [->|Hin]; [congruence|].
        now apply IHr.
      * destruct IHr as [before [it [after [Heq [He [Hr [Hv Hearlier]]]]]]].
        exists (item :: before), it, after. rewrite Heq.
        repeat split; auto. intros earlier Hin Hre.
        apply elem_of_cons in Hin as [->|Hin]; [congruence | now apply Hearlier].
Qed.

End ModelMore.

(** ** Further properties of the connector *)

Module ConnectorMore.
Import Py model connector Scenarios Predicates DictFacts.
Import RedisConnector.
Local Open Scope py_scope.

(** *** The cost and the outcome of a refresh *)

Lemma attempt_effect w :
  is_Some (_connection (snd (attempt w))) /\
  server (snd (attempt w)) = server w /\
  reachable (snd (attempt w)) = reachable w /\
  round_trips w < round_trips (snd (attempt w)) <= round_trips w + 2.
Proof.
  rewrite ConnectorFacts.attempt_eq.
  destruct (_connection w) as [c|] eqn:Hc; [destruct (answers w)|]; simpl;
    rewrite ?Hc; repeat split; eauto; lia.
Qed.

Lemma refresh_loop_effect n : forall w,
  server (snd (refresh_loop n w)) = server w /\
  reachable (snd (refresh_loop n w)) = reachable w /\
  round_trips w <= round_trips (snd (refresh_loop n w)) <= round_trips w + 2 * n /\
  (fst (refresh_loop n w) = Ok true -> is_Some (_connection (snd (refresh_loop n w)))).
Proof.
  induction n as [|n IH]; intros w.
  - simpl. repeat split; try lia. discriminate.
  - simpl. unfold bind.
    destruct (attempt_effect w) as [Hc [Hs [Hr Ht]]].
    destruct (ConnectorFacts.attempt_total w) as [b [w1 Hturn]].
    rewrite Hturn in *. simpl in *. destruct b; simpl.
    + repeat split; auto; lia.
    + destruct (IH w1) as [Hs1 [Hr1 [Ht1 Hc1]]].
      rewrite Hs1, Hr1. repeat split; auto; lia.
Qed.

(** X13. Whatever [refresh] answers, it leaves the server's data alone
    and sends at most two commands for each of the [retry_count] turns;
    when it returns, the answer is [True] and the connector holds a
    connection object, so that the commands that follow have a client to
    call. *)
Theorem refresh_effect CONFIG w :
  server (snd (refresh CONFIG w)) = server w /\
  reachable (snd (refresh CONFIG w)) = reachable w /\
  round_trips w <= round_trips (snd (refresh CONFIG w))
                <= round_trips w + 2 * retry_count CONFIG /\
  (forall b, fst (refresh CONFIG w) = Ok b ->
             b = true /\ is_Some (_connection (snd (refresh CONFIG w)))).
Proof.
  unfold refresh, bind, load_global. simpl.
  destruct (refresh_loop_effect (retry_count CONFIG) w) as [Hs [Hr [Ht Hc]]].
  destruct (ConnectorFacts.refresh_loop_total (retry_count CONFIG) w) as [b [w' Hloop]].
  rewrite Hloop in *. simpl in *. destruct b; simpl.
  - split; [exact Hs|]. split; [exact Hr|]. split; [lia|].
    intros b' Hb. injection Hb as <-. split; [reflexivity|]. now apply Hc.
  - split; [exact Hs|]. split; [exact Hr|]. split; [lia|].
    intros b' Hb. discriminate.
Qed.

(** X14. With a connection whose server answers and at least one turn
    allowed, [refresh] is over after a single probe: it returns [True]
    and nothing but the count of commands sent has changed. *)
Theorem refresh_when_alive CONFIG w c :
  _connection w = Some c -> answers w = true -> 0 < retry_count CONFIG ->
  refresh CONFIG w = (Ok true, counted w).
Proof.
  intros Hc Hup Hretry. unfold refresh, bind, load_global. simpl.
  destruct (retry_count CONFIG) as [|n]; [lia|].
  rewrite (ConnectorFacts.refresh_loop_stops n w (counted w)); [reflexivity|].
  now rewrite ConnectorFacts.attempt_eq, Hc, Hup.
Qed.

Lemma refresh_when_alive_witness :
  refresh (settings 1) (snd (refresh (settings 2) (unconnected always_up))) =
  (Ok true, counted (snd (refresh (settings 2) (unconnected always_up)))).
Proof.
  eapply (refresh_when_alive (settings 1)); [reflexivity | reflexivity | simpl; lia].
Defined.

(** *** Rebuilding nested content *)

Lemma pop_last_app entities : forall init last,
  pop_last entities = Some (init, last) -> entities = (init ++ [last])%list.
Proof.
  induction entities as [|x rest IH]; intros init last; simpl; [discriminate|].
  destruct rest as [|y rest].
  - now intros [= <- <-].
  - destruct (pop_last (y :: rest)) as [[init' last']|]; [|discriminate].
    intros [= <- <-]. simpl. f_equal. now apply IH.
Qed.

Lemma pop_last_cons entities : forall x,
  exists init last, pop_last (x :: entities) = Some (init, last).
Proof.
  induction entities as [|y rest IH]; intros x; [now exists [], x|].
  destruct (IH y) as [init [last Hrest]].
  exists (x :: init), last. simpl in *. now rewrite Hrest.
Qed.

Lemma store_at_state {S} entities : forall container_key v container (s : S),
  snd (store_at entities container_key v container s) = s.
Proof.
  induction entities as [|e rest IH]; intros ck v container s; [reflexivity|].
  simpl. destruct (dict_get e container) as [[ | b | n | x | l | d]|];
    try (destruct rest; reflexivity);
    unfold bind;
    match goal with |- context [store_at rest ck v ?c s] =>
      pose proof (IH ck v c s) as Hs;
      destruct (store_at rest ck v c s) as [[child|err] s1]; simpl in Hs; subst s1;
      reflexivity
    end.
Qed.

(** A value stored along a path is found along that path. *)
Lemma store_at_lookup {S} entities : forall container_key v container content (s s' : S),
  store_at entities container_key v container s = (Ok content, s') ->
  path_get (entities ++ [container_key])%list content = Some v.
Proof.
  induction entities as [|e rest IH]; intros ck v container content s s' Hstore.
  - simpl in Hstore. injection Hstore as <- _. simpl. apply dict_get_set_eq.
  - assert (Hnested : forall child d,
               path_get (rest ++ [ck])%list child = Some v ->
               path_get ((e :: rest) ++ [ck])%list (dict_set e (VDict child) d) = Some v).
    { intros child d Hchild. simpl.
      destruct (rest ++ [ck])%list eqn:Hpath; [now destruct rest|].
      now rewrite dict_get_set_eq. }
    simpl in Hstore.
    destruct (dict_get e container) as [[ | b | n | x | l | d]|];
      try (destruct rest; simpl in Hstore; discriminate);
      unfold bind in Hstore;
      match type of Hstore with context [store_at rest ck v ?c s] =>
        destruct (store_at rest ck v c s) as [[child|err] s1] eqn:Hchild;
        [|discriminate]
      end;
      injection Hstore as <- _; apply Hnested; eapply IH; exact Hchild.
Qed.

Lemma _load_content_loop_app {S} d1 d2 : forall content (s : S),
  _load_content_loop (d1 ++ d2)%list content s =
  bind (_load_content_loop d1 content) (_load_content_loop d2) s.
Proof.
  induction d1 as [|[k v] d1 IH]; intros content s; [reflexivity|].
  simpl. destruct (pop_last (split "."%char k)) as [[entities ck]|]; [|reflexivity].
  unfold bind in *.
  destruct (store_at entities ck v content s) as [[content'|err] s1]; [|reflexivity].
  apply IH.
Qed.

(** X15. When [_load_content] returns, the entry it loaded last is
    found in the result by going down the segments of its dotted key. *)
Theorem last_entry_loaded {S} data k v content (s s' : S) :
  _load_content (data ++ [(k, v)])%list s = (Ok content, s') ->
  path_get (split "."%char k) content = Some v.
Proof.
  unfold _load_content. rewrite _load_content_loop_app. unfold bind.
  destruct (_load_content_loop data [] s) as [[loaded|err] s1]; [|discriminate].
  simpl. destruct (pop_last (split "."%char k)) as [[entities ck]|] eqn:Hpop;
    [|discriminate].
  apply pop_last_app in Hpop. rewrite Hpop. unfold bind.
  destruct (store_at entities ck v loaded s1) as [[stored|err] s2] eqn:Hstore;
    [|discriminate].
  intros [= <- _]. eapply store_at_lookup, Hstore.
Qed.

Lemma last_entry_loaded_witness :
  path_get ["a"; "c"]
    (match _load_content [("a.b", VInt 1); ("a.c", VInt 2)] tt with
     | (Ok content, _) => content
     | (Raise _, _) => []
     end) = Some (VInt 2).
Proof.
  exact (last_entry_loaded [("a.b", VInt 1)] "a.c" (VInt 2) _ tt tt eq_refl).
Defined.

(** X16. A dotted key cannot go through a leaf: when the content loaded
    so far has something other than a dictionary under the first segment
    of a key with two or more segments, loading that key raises (a
    [TypeError] or an [AttributeError]) and no content is returned. *)
Theorem leaf_on_the_path {S} data k v content leaf e ck rest (s : S) :
  _load_content data s = (Ok content, s) ->
  split "."%char k = e :: ck :: rest ->
  dict_get e content = Some leaf ->
  isinstance leaf TDict = false ->
  exists err, _load_content (data ++ [(k, v)])%list s = (Raise err, s) /\
              ((exists m, err = TypeError m) \/ (exists t a, err = AttributeError t a)).
Proof.
  unfold _load_content. intros Hload Hsplit Hleaf Hkind.
  rewrite _load_content_loop_app. unfold bind. rewrite Hload. simpl.
  rewrite Hsplit.
  destruct (pop_last_cons rest ck) as [more [last Hpop]].
  assert (Hpop' : pop_last (e :: ck :: rest) = Some (e :: more, last))
    by (simpl in *; now rewrite Hpop).
  rewrite Hpop'. unfold bind. simpl. rewrite Hleaf.
  destruct leaf; try discriminate; destruct more; simpl;
    eexists; split; try reflexivity; eauto.
Qed.

Lemma leaf_on_the_path_witness :
  exists err, _load_content ([("a", VInt 1)] ++ [("a.b", VInt 2)])%list tt = (Raise err, tt) /\
              ((exists m, err = TypeError m) \/ (exists t a, err = AttributeError t a)).
Proof.
  exact (leaf_on_the_path [("a", VInt 1)] "a.b" (VInt 2) [("a", VInt 1)] (VInt 1)
           "a" "b" [] tt eq_refl eq_refl eq_refl eq_refl).
Defined.

(** *** What reaches the server *)

Ltac command_eq :=
  unfold call_connection, bind, get_state, put_state, answers;
  match goal with |- context [_connection ?w] => destruct (_connection w) end;
  [|reflexivity]; simpl; unfold bind, round_trip;
  match goal with |- context [reachable ?w (round_trips ?w)] =>
    destruct (reachable w (round_trips w)) end; reflexivity.

Lemma call_sadd_eq name x w :
  call_connection "sadd" [name; x] w =
  match _connection w with
  | None => (Raise (AttributeError "NoneType" "sadd"), w)
  | Some _ =>
      if answers w
      then (Ok (RInt (if bool_decide (x ∈ set_of name (server w)) then 0 else 1)),
            set_server {| hashes := hashes (server w);
                          sets := <[name := {[x]} ∪ set_of name (server w)]>
                                    (sets (server w)) |} (counted w))
      else (Raise ConnectionError, counted w)
  end.
Proof. command_eq. Qed.

Lemma call_srem_eq name x w :
  call_connection "srem" [name; x] w =
  match _connection w with
  | None => (Raise (AttributeError "NoneType" "srem"), w)
  | Some _ =>
      if answers w
      then (Ok (RInt (if bool_decide (x ∈ set_of name (server w)) then 1 else 0)),
            set_server {| hashes := hashes (server w);
                          sets := <[name := set_of name (server w) ∖ {[x]}]>
                                    (sets (server w)) |} (counted w))
      else (Raise ConnectionError, counted w)
  end.
Proof. command_eq. Qed.

Lemma call_hset_eq name k v w :
  call_connection "hset" [name; k; v] w =
  match _connection w with
  | None => (Raise (AttributeError "NoneType" "hset"), w)
  | Some _ =>
      if answers w
      then (Ok (RInt (match hash_of name (server w) !! k with Some _ => 0 | None => 1 end)),
            set_server {| hashes := <[name := <[k := v]> (hash_of name (server w))]>
                                      (hashes (server w));
                          sets := sets (server w) |} (counted w))
      else (Raise ConnectionError, counted w)
  end.
Proof. command_eq. Qed.

Lemma call_hdel_eq name k w :
  call_connection "hdel" [name; k] w =
  match _connection w with
  | None => (Raise (AttributeError "NoneType" "hdel"), w)
  | Some _ =>
      if answers w
      then (Ok (RInt (match hash_of name (server w) !! k with Some _ => 1 | None => 0 end)),
            set_server {| hashes := <[name := delete k (hash_of name (server w))]>
                                      (hashes (server w));
                          sets := sets (server w) |} (counted w))
      else (Raise ConnectionError, counted w)
  end.
Proof. command_eq. Qed.

Lemma call_smembers_eq name w :
  call_connection "smembers" [name] w =
  match _connection w with
  | None => (Raise (AttributeError "NoneType" "smembers"), w)
  | Some _ =>
      if answers w
      then (Ok (RSet (set_of name (server w))), counted w)
      else (Raise ConnectionError, counted w)
  end.
Proof. command_eq. Qed.

Lemma hash_of_insert name h d s :
  hash_of name {| hashes := <[name := h]> (hashes d); sets := s |} = h.
Proof. unfold hash_of. simpl. now rewrite lookup_insert_eq. Qed.

Lemma hash_of_insert_ne name name' h d s :
  name <> name' ->
  hash_of name' {| hashes := <[name := h]> (hashes d); sets := s |} = hash_of name' d.
Proof. intros Hne. unfold hash_of. simpl. now rewrite lookup_insert_ne. Qed.

Lemma set_of_insert name x d h :
  set_of name {| hashes := h; sets := <[name := x]> (sets d) |} = x.
Proof. unfold set_of. simpl. now rewrite lookup_insert_eq. Qed.

Lemma set_of_insert_ne name name' x d h :
  name <> name' ->
  set_of name' {| hashes := h; sets := <[name := x]> (sets d) |} = set_of name' d.
Proof. intros Hne. unfold set_of. simpl. now rewrite lookup_insert_ne. Qed.

(** X17. [_add_resource] on a server that answers: the resource id is
    in the index of its type and the schema entry lists the keys of the
    content, but the hashes that hold field values are as they were: with
    any content to write the call ends in the [NameError] of the first
    field, and only with none does it return. *)
Theorem _add_resource_partial str_ json_dumps model_name resource_id content w c :
  _connection w = Some c -> answers w = true -> answers (counted w) = true ->
  str_ resource_id ∈
    set_of ("models." ++ model_name)
           (server (snd (_add_resource str_ json_dumps model_name resource_id content w))) /\
  hash_of "schema"
    (server (snd (_add_resource str_ json_dumps model_name resource_id content w)))
    !! (str_ resource_id ++ ".fields") = Some (join "," (dict_keys content)) /\
  (forall h, h <> "schema" ->
     hash_of h (server (snd (_add_resource str_ json_dumps model_name resource_id content w)))
     = hash_of h (server w)) /\
  fst (_add_resource str_ json_dumps model_name resource_id content w) =
  match content with
  | [] => Ok tt
  | _ :: _ => Raise (NameError "json")
  end.
Proof.
  intros Hc Hup Hup'. unfold _add_resource, bind.
  rewrite call_sadd_eq, Hc, Hup, call_hset_eq. simpl _connection. rewrite Hc.
  change (answers (set_server _ (counted w))) with (answers (counted w)). rewrite Hup'.
  assert (Hloop : forall w1,
    _connection w1 = Some c ->
    for_each content
      (fun item => _set_field str_ json_dumps model_name resource_id (fst item) (snd item)) w1 =
    (match content with [] => Ok tt | _ :: _ => Raise (NameError "json") end, w1)).
  { intros w1 Hc1. destruct content as [|item content]; [reflexivity|].
    simpl. unfold bind. now rewrite ConnectorFacts._set_field_raises, Hc1. }
  rewrite Hloop by exact Hc. simpl. split; [|split; [|split]].
  - rewrite set_of_insert. set_solver.
  - rewrite hash_of_insert. apply lookup_insert_eq.
  - intros h Hh. now rewrite hash_of_insert_ne by congruence.
  - now destruct content.
Qed.

Lemma _add_resource_partial_witness :
  hash_of "schema"
    (server (snd (_add_resource str_of (fun _ => "") "Instance_" (VStr "r1")
                    [("hostname", VStr "h")]
                    (snd (refresh (settings 2) (unconnected always_up))))))
    !! "r1.fields" = Some "hostname" /\
  hash_of "Instance_"
    (server (snd (_add_resource str_of (fun _ => "") "Instance_" (VStr "r1")
                    [("hostname", VStr "h")]
                    (snd (refresh (settings 2) (unconnected always_up))))))
  = hash_of "Instance_" (server (unconnected always_up)).
Proof.
  destruct (_add_resource_partial str_of (fun _ => "") "Instance_" (VStr "r1")
              [("hostname", VStr "h")]
              (snd (refresh (settings 2) (unconnected always_up))) _
              eq_refl eq_refl eq_refl) as [_ [Hschema [Hfields _]]].
  split; [exact Hschema|]. now apply Hfields.
Defined.

(** X18. [_remove_resource] on a server that answers takes the resource
    id out of the index of its type and deletes its schema entry, and
    nothing else: the other schema entries and every stored field value
    stay.  Reading the resource afterwards ends in the [AttributeError]
    of the missing schema entry. *)
Theorem _remove_resource_effect model_name resource_id w c :
  _connection w = Some c ->
  answers w = true -> answers (counted w) = true ->
  answers (counted (counted w)) = true ->
  fst (_remove_resource model_name resource_id w) = Ok tt /\
  (resource_id ∉ set_of ("models." ++ model_name)
                        (server (snd (_remove_resource model_name resource_id w)))) /\
  hash_of "schema" (server (snd (_remove_resource model_name resource_id w)))
    !! (resource_id ++ ".fields") = None /\
  (forall k, k <> resource_id ++ ".fields" ->
     hash_of "schema" (server (snd (_remove_resource model_name resource_id w))) !! k
     = hash_of "schema" (server w) !! k) /\
  (forall h, h <> "schema" ->
     hash_of h (server (snd (_remove_resource model_name resource_id w)))
     = hash_of h (server w)) /\
  (forall json_dumps,
     answers (snd (_remove_resource model_name resource_id w)) = true ->
     answers (counted (snd (_remove_resource model_name resource_id w))) = true ->
     fst (_get_resource json_dumps model_name resource_id
            (snd (_remove_resource model_name resource_id w)))
     = Raise (AttributeError "NoneType" "split")).
Proof.
  intros Hc Hup0 Hup1 Hup2. unfold _remove_resource, bind.
  rewrite call_srem_eq, Hc, Hup0, ConnectorFacts.call_hget_eq. simpl _connection.
  rewrite Hc.
  change (answers (set_server ?d (counted w))) with (answers (counted w)).
  rewrite Hup1, call_hdel_eq. simpl _connection. rewrite Hc.
  change (answers (counted (set_server ?d (counted w))))
    with (answers (counted (counted w))).
  rewrite Hup2. simpl fst. simpl snd.
  assert (Hgone : forall (h : gmap string string) s d,
             hash_of "schema"
               {| hashes := <["schema" := delete (resource_id ++ ".fields") h]> (hashes d);
                  sets := s |} !! (resource_id ++ ".fields") = None).
  { intros h s d. rewrite hash_of_insert. apply lookup_delete_eq. }
  split; [reflexivity|]. split; [|split; [|split; [|split]]].
  - simpl. rewrite set_of_insert. apply not_elem_of_difference. right.
    now apply elem_of_singleton.
  - simpl. apply Hgone.
  - intros k Hk. simpl. rewrite hash_of_insert.
    rewrite lookup_delete_ne by congruence. reflexivity.
  - intros h Hh. simpl. now rewrite hash_of_insert_ne by congruence.
  - intros json_dumps Hnext Hnext'.
    erewrite ConnectorFacts._get_resource_answered; [| exact Hc | exact Hnext | exact Hnext'].
    simpl. now rewrite Hgone.
Qed.

Lemma _remove_resource_effect_witness :
  fst (_remove_resource "Instance_" "r1"
         (snd (_add_resource str_of (fun _ => "") "Instance_" (VStr "r1") []
                 (snd (refresh (settings 2) (unconnected always_up)))))) = Ok tt /\
  hash_of "schema"
    (server (snd (_remove_resource "Instance_" "r1"
                    (snd (_add_resource str_of (fun _ => "") "Instance_" (VStr "r1") []
                            (snd (refresh (settings 2) (unconnected always_up))))))))
    !! "r1.fields" = None.
Proof.
  destruct (_remove_resource_effect "Instance_" "r1"
              (snd (_add_resource str_of (fun _ => "") "Instance_" (VStr "r1") []
                      (snd (refresh (settings 2) (unconnected always_up))))) _
              eq_refl eq_refl eq_refl eq_refl) as [Hok [_ [Hgone _]]].
  split; [exact Hok | exact Hgone].
Defined.

(** *** Listing and fetching *)

Lemma get_all_only_empty CONFIG json_dumps model_name w l :
  fst (get_all CONFIG json_dumps model_name w) = Ok l ->
  l = [] /\ set_of ("models." ++ model_name) (server w) = ∅.
Proof.
  unfold get_all, bind.
  pose proof (ConnectorFacts.refresh_keeps_server CONFIG w) as Hserver.
  destruct (refresh CONFIG w) as [[b|e] w1]; [|discriminate]. simpl in Hserver.
  rewrite call_smembers_eq.
  destruct (_connection w1); [|discriminate].
  destruct (answers w1); [|discriminate]. simpl. rewrite Hserver.
  destruct (elements (set_of ("models." ++ model_name) (server w))) as [|x rest] eqn:Hel.
  - simpl. intros [= <-]. split; [reflexivity|].
    apply elements_empty_inv in Hel. now apply leibniz_equiv in Hel.
  - simpl. unfold bind.
    destruct (ConnectorFacts._get_resource_raises json_dumps model_name (Bytes x)
                (counted w1))
      as [e [w2 [-> _]]]. discriminate.
Qed.

(** X19. [get_all] gives back no resource: it returns only when the
    index of the type is empty, and then the empty list; with anything
    in the index, the first resource it reads makes it raise. *)
Theorem get_all_returns_nothing CONFIG json_dumps model_name w l :
  fst (get_all CONFIG json_dumps model_name w) = Ok l ->
  l = [] /\ set_of ("models." ++ model_name) (server w) = ∅.
Proof. apply get_all_only_empty. Qed.

Lemma get_all_returns_nothing_witness :
  fst (get_all (settings 2) (fun _ => "") "Instance_" (unconnected always_up)) = Ok [] /\
  set_of "models.Instance_" (server (unconnected always_up)) = ∅.
Proof.
  split; [vm_compute; reflexivity|].
  exact (proj2 (get_all_returns_nothing (settings 2) (fun _ => "") "Instance_"
                  (unconnected always_up) [] ltac:(vm_compute; reflexivity))).
Defined.

(** X20. Through [ArestorModel] the Redis connector yields no record:
    fetching one resource always raises, and never a not-found error;
    fetching all of a type returns at most the empty list; no record is
    built on the way, so no default factory is called. *)
Theorem stored_records_are_not_fetched CONFIG json_dumps c resource_id w tick :
  (exists e,
     fst (@ArestorModel.get_one t (RedisConnector_Connector CONFIG json_dumps)
            c resource_id (w, tick)) = Raise e /\ not_NotFound e) /\
  snd (snd (@ArestorModel.get_one t (RedisConnector_Connector CONFIG json_dumps)
              c resource_id (w, tick))) = tick /\
  (forall l,
     fst (@ArestorModel.get_every t (RedisConnector_Connector CONFIG json_dumps)
            c (w, tick)) = Ok l -> l = []) /\
  snd (snd (@ArestorModel.get_every t (RedisConnector_Connector CONFIG json_dumps)
              c (w, tick))) = tick.
Proof.
  unfold ArestorModel.get_one, ArestorModel.get_every, bind, on_fst. simpl.
  destruct (ConnectorFacts.get_raises CONFIG json_dumps (cls_name c) resource_id w)
    as [e [He Hnot]].
  destruct (get CONFIG json_dumps (cls_name c) resource_id w) as [[r|e'] w1];
    simpl in He; [discriminate|]. injection He as ->.
  pose proof (get_all_only_empty CONFIG json_dumps (cls_name c) w) as Hall.
  destruct (get_all CONFIG json_dumps (cls_name c) w) as [[l|e'] w2]; simpl in *.
  - destruct (Hall l eq_refl) as [-> _]. simpl.
    repeat split; eauto. now intros l [= <-].
  - repeat split; eauto. discriminate.
Qed.

(** *** Flattening *)

(** X28. A map with a dictionary among its values is never flattened:
    whatever the prefix and wherever the nested value stands,
    [_dump_content] raises the [AttributeError] of the missing
    [_process_content]. *)
Theorem nested_value_raises {S} root prefix (s : S) :
  (exists k d, (k, VDict d) ∈ root) ->
  _dump_content root prefix s =
  (Raise (AttributeError "RedisConnector" "_process_content"), s).
Proof. apply ConnectorFacts._dump_content_nested. Qed.

Lemma nested_value_raises_witness :
  _dump_content [("d", VInt 3); ("a", VDict [])] "top" tt =
  (Raise (AttributeError "RedisConnector" "_process_content"), tt).
Proof.
  apply nested_value_raises. exists "a", [].
  apply list_elem_of_further, list_elem_of_here.
Defined.

(** X29. For a map without nested values, with distinct keys free of
    dots, both directions are the identity: [_dump_content] without
    prefix returns the map, and [_load_content] returns it as well. *)
Theorem flat_maps_unchanged {S} m (s : S) :
  NoDup (dict_keys m) ->
  (forall k, k ∈ dict_keys m -> contains_char "."%char k = false) ->
  (forall k v, (k, v) ∈ m -> isinstance v TDict = false) ->
  _dump_content m "" s = (Ok m, s) /\ _load_content m s = (Ok m, s).
Proof.
  intros Hnd Hkeys Hflat. split.
  - rewrite ConnectorFacts._dump_content_flat by exact Hflat.
    now rewrite dict_update_nil.
  - unfold _load_content.
    rewrite ConnectorFacts._load_content_loop_flat by exact Hkeys.
    now rewrite dict_update_nil.
Qed.

Lemma flat_maps_unchanged_witness :
  _dump_content [("hostname", VStr "h"); ("tags", VList [VStr "a"])] "" tt =
  (Ok [("hostname", VStr "h"); ("tags", VList [VStr "a"])], tt) /\
  _load_content [("hostname", VStr "h"); ("tags", VList [VStr "a"])] tt =
  (Ok [("hostname", VStr "h"); ("tags", VList [VStr "a"])], tt).
Proof.
  apply flat_maps_unchanged.
  - simpl. apply NoDup_ListNoDup. repeat constructor; simpl; intuition discriminate.
  - intros k Hk. simpl in Hk.
    apply elem_of_cons in Hk as [->|Hk]; [reflexivity|].
    apply elem_of_cons in Hk as [->|Hk]; [reflexivity|].
    now apply elem_of_nil in Hk.
  - intros k v Hin.
    apply elem_of_cons in Hin as [[= -> ->]|Hin]; [reflexivity|].
    apply elem_of_cons in Hin as [[= -> ->]|Hin]; [reflexivity|].
    now apply elem_of_nil in Hin.
Defined.

(** *** Storing a record *)

Lemma _add_resource_keeps_fields str_ json_dumps model_name resource_id content w h :
  h <> "schema" ->
  hash_of h (server (snd (_add_resource str_ json_dumps model_name resource_id content w)))
  = hash_of h (server w).
Proof.
  intros Hh. unfold _add_resource, bind. rewrite call_sadd_eq.
  destruct (_connection w) as [c|] eqn:Hc; [|reflexivity].
  destruct (answers w); [|reflexivity].
  rewrite call_hset_eq. simpl _connection. rewrite Hc.
  destruct (answers (set_server _ (counted w))); [|reflexivity].
  assert (Hloop : forall w1,
    snd (for_each content
           (fun item => _set_field str_ json_dumps model_name resource_id
                                   (fst item) (snd item)) w1) = w1).
  { intros w1. destruct content as [|item content]; [reflexivity|].
    simpl. unfold bind. now rewrite ConnectorFacts._set_field_raises. }
  rewrite Hloop. simpl. now rewrite hash_of_insert_ne by congruence.
Qed.

(** X30. [set] stores no record: for any record that dumps to
    something it raises, and whether it raises or not it leaves every
    hash of field values on the server as it was. *)
Theorem set_stores_no_field CONFIG str_ json_dumps model w :
  BaseModel.dump (_meta (class_of model)) true (state_of model) <> [] ->
  (exists e, fst (set CONFIG str_ json_dumps model w) = Raise e) /\
  forall h, h <> "schema" ->
            hash_of h (server (snd (set CONFIG str_ json_dumps model w)))
            = hash_of h (server w).
Proof.
  intros Hdump. split; [now apply ConnectorFacts.set_raises|].
  intros h Hh. unfold set, bind.
  pose proof (ConnectorFacts.refresh_keeps_server CONFIG w) as Hserver.
  destruct (refresh CONFIG w) as [[b|e] w1]; simpl in Hserver;
    [|simpl; now rewrite Hserver].
  destruct (ConnectorFacts._dump_content_cases
              (BaseModel.dump (_meta (class_of model)) true (state_of model)) "" w1)
    as [->|[content [-> _]]]; [simpl; now rewrite Hserver|].
  unfold getattr_field.
  destruct (dict_get "resource_id" (descriptors (class_of model))) as [field|];
    [|simpl; now rewrite Hserver].
  unfold ret. rewrite _add_resource_keeps_fields by exact Hh. now rewrite Hserver.
Qed.

Lemma set_stores_no_field_witness :
  (exists e, fst (set (settings 3) str_of (fun _ => "") an_instance
                      (unconnected always_up)) = Raise e) /\
  hash_of "Instance_"
    (server (snd (set (settings 3) str_of (fun _ => "") an_instance
                      (unconnected always_up)))) = ∅.
Proof.
  destruct (set_stores_no_field (settings 3) str_of (fun _ => "") an_instance
              (unconnected always_up) ltac:(discriminate)) as [Hraise Hkeep].
  split; [exact Hraise|]. now rewrite Hkeep.
Defined.

End ConnectorMore.

(** ** Padding, the object tree and the endpoint *)

Module UtilFacts.
Import Py util openstack.
Local Open Scope py_scope.

(** *** Padding *)

Lemma padding_count (message : list N) block_size :
  (0 < block_size)%Z ->
  (1 <= block_size - Z.of_nat (length message) mod block_size <= block_size)%Z.
Proof.
  intros Hbs.
  pose proof (Z.mod_pos_bound (Z.of_nat (length message)) block_size Hbs). lia.
Qed.

Lemma last_of_repeat (message : list N) c n :
  skipn (length (message ++ repeat c (S n)) - 1) (message ++ repeat c (S n)) = [c].
Proof.
  change (repeat c (S n)) with (c :: repeat c n). rewrite repeat_cons, app_assoc.
  rewrite length_app. simpl. rewrite Nat.add_sub.
  apply drop_app_length.
Qed.

(** X21. Padding and its removal are inverse: for a block size between
    1 and the largest character code, [_padding] returns the message
    followed by one to [block_size] characters, up to a multiple of the
    block size, and [_remove_padding] gives the message back. *)
Theorem padding_round_trip message block_size :
  (0 < block_size <= 1114111)%Z ->
  exists padded,
    _padding message block_size = inl padded /\
    _remove_padding padded = inl message /\
    length message < length padded <= length message + Z.to_nat block_size /\
    (Z.of_nat (length padded) mod block_size = 0)%Z.
Proof.
  intros [Hpos Hmax]. pose proof (padding_count message block_size Hpos) as Hcount.
  set (count := (block_size - Z.of_nat (length message) mod block_size)%Z) in *.
  assert (Hchr : chr count = inl (Z.to_N count)).
  { unfold chr. replace ((0 <=? count)%Z) with true by (symmetry; apply Z.leb_le; lia).
    replace ((count <=? 1114111)%Z) with true by (symmetry; apply Z.leb_le; lia).
    reflexivity. }
  exists (message ++ repeat_char count (Z.to_N count))%list.
  assert (Hn : exists n, Z.to_nat count = S n) by (exists (Z.to_nat count - 1); lia).
  destruct Hn as [n Hn].
  split; [|split; [|split]].
  - unfold _padding. replace ((block_size =? 0)%Z) with false
      by (symmetry; apply Z.eqb_neq; lia).
    fold count. now rewrite Hchr.
  - unfold _remove_padding, repeat_char. rewrite Hn, last_of_repeat.
    unfold drop_last. replace ((Z.to_N count =? 0)%N) with false
      by (symmetry; apply N.eqb_neq; lia).
    f_equal. rewrite length_app, repeat_length.
    replace (length message + S n - N.to_nat (Z.to_N count)) with (length message) by lia.
    apply take_app_length.
  - unfold repeat_char. rewrite length_app, repeat_length. lia.
  - unfold repeat_char. rewrite length_app, repeat_length.
    replace (Z.of_nat (length message + Z.to_nat count))
      with (Z.of_nat (length message) + count)%Z by lia.
    unfold count.
    rewrite (Z.div_mod (Z.of_nat (length message)) block_size) at 1 by lia.
    replace (block_size * (Z.of_nat (length message) / block_size)
             + Z.of_nat (length message) mod block_size
             + (block_size - Z.of_nat (length message) mod block_size))%Z
      with ((Z.of_nat (length message) / block_size + 1) * block_size)%Z by lia.
    apply Z.mod_mul. lia.
Qed.

Lemma padding_round_trip_witness :
  _padding [104; 105]%N 4 = inl [104; 105; 2; 2]%N /\
  _remove_padding [104; 105; 2; 2]%N = inl [104; 105]%N.
Proof.
  destruct (padding_round_trip [104; 105]%N 4 ltac:(lia)) as [padded [Hpad [Hrem _]]].
  vm_compute in Hpad. injection Hpad as <-. split; [reflexivity | exact Hrem].
Defined.



Lemma last_of_nonempty (message : list N) x :
  exists init c, (x :: message = init ++ [c])%list /\
                 skipn (length (x :: message) - 1) (x :: message) = [c].
Proof.
  destruct (exists_last (l := x :: message) ltac:(discriminate)) as [init [c Heq]].
  exists init, c. split; [exact Heq|]. rewrite Heq.
  rewrite length_app. simpl. rewrite Nat.add_sub. apply drop_app_length.
Qed.

(** X23. [_remove_padding] raises on the empty message only; on any
    other message it returns a prefix that is shorter than the message,
    whatever the last character is. *)
Theorem remove_padding_outcome message :
  match _remove_padding message with
  | inl rest => message <> [] /\ rest `prefix_of` message /\ length rest < length message
  | inr e => message = []
  end.
Proof.
  destruct message as [|x message]; [reflexivity|].
  destruct (last_of_nonempty message x) as [init [c [Heq Hlast]]].
  unfold _remove_padding. rewrite Hlast. split; [discriminate|].
  unfold drop_last. destruct (c =? 0)%N eqn:Hc.
  - split; [apply prefix_nil | simpl; lia].
  - apply N.eqb_neq in Hc. split; [apply prefix_take|].
    rewrite length_take.
    assert (Hk : 0 < N.to_nat c) by lia.
    assert (Hlen : 0 < length (x :: message)) by (simpl; lia).
    revert Hk Hlen. generalize (N.to_nat c) (length (x :: message)). intros k len.
    lia.
Qed.

(** *** The object tree *)

Local Arguments String.eqb : simpl never.
Local Arguments Ascii.eqb : simpl never.




(** *** Names with underscores *)

Lemma replace_dash_back k :
  contains_char "_"%char k = false ->
  replace_char "_"%char "-"%char (replace_char "-"%char "_"%char k) = k.
Proof.
  induction k as [|c k IH]; simpl; [reflexivity|].
  destruct (Ascii.eqb_spec "_"%char c) as [<-|Hc]; simpl; [discriminate|].
  intros Hk. rewrite IH by exact Hk.
  destruct (Ascii.eqb_spec c "-"%char) as [->|Hd]; [reflexivity|].
  destruct (Ascii.eqb_spec c "_"%char) as [->|Hu]; [congruence | reflexivity].
Qed.

Lemma underscore_after_replace k :
  contains_char "-"%char k = true ->
  contains_char "_"%char (replace_char "-"%char "_"%char k) = true.
Proof.
  induction k as [|c k IH]; simpl; [discriminate|].
  destruct (Ascii.eqb_spec "-"%char c) as [<-|Hc]; simpl; [reflexivity|].
  intros Hk. rewrite IH by exact Hk.
  destruct (Ascii.eqb_spec c "-"%char) as [->|Hd]; [congruence|].
  apply orb_true_r.
Qed.

Lemma no_underscore_after_replace name :
  contains_char "_"%char (replace_char "_"%char "-"%char name) = false.
Proof.
  induction name as [|c name IH]; simpl; [reflexivity|]. rewrite IH.
  destruct (Ascii.eqb_spec c "_"%char) as [->|Hc]; [reflexivity|].
  destruct (Ascii.eqb_spec "_"%char c) as [<-|Hc']; [congruence | reflexivity].
Qed.

(** X25. What the endpoint holds under a name with dashes (and no
    underscore) is what [__getattr__] answers for the same name written
    with underscores; the lookup never raises. *)
Theorem dashed_name_reached {S V} class_name (instance_dict : pydict V) k (s : S) :
  contains_char "-"%char k = true ->
  contains_char "_"%char k = false ->
  __getattr__ class_name instance_dict (replace_char "-"%char "_"%char k) s =
  (Ok (dict_get k instance_dict), s).
Proof.
  intros Hdash Hunder. unfold __getattr__.
  now rewrite underscore_after_replace, replace_dash_back.
Qed.

Lemma dashed_name_reached_witness :
  __getattr__ "OpenStackEndpoint" [("2013-04-04", 1); ("latest", 2)] "2013_04_04" tt =
  (Ok (Some 1), tt).
Proof.
  exact (dashed_name_reached "OpenStackEndpoint" [("2013-04-04", 1); ("latest", 2)]
           "2013-04-04" tt eq_refl eq_refl).
Defined.

(** X26. [__getattr__] never answers with an entry whose name has an
    underscore: whatever it finds is held under a name without one. *)
Theorem underscored_entries_hidden {S V} class_name (instance_dict : pydict V)
        name found (s s' : S) :
  __getattr__ class_name instance_dict name s = (Ok (Some found), s') ->
  exists k, contains_char "_"%char k = false /\ dict_get k instance_dict = Some found.
Proof.
  unfold __getattr__. destruct (contains_char "_"%char name); [|discriminate].
  intros [= Hfound _]. exists (replace_char "_"%char "-"%char name).
  split; [apply no_underscore_after_replace | exact Hfound].
Qed.

Lemma underscored_entries_hidden_witness :
  exists k, contains_char "_"%char k = false /\
            dict_get k [("meta_data", 1); ("meta-data", 2)] = Some 2.
Proof.
  exact (underscored_entries_hidden "OpenStackEndpoint"
           [("meta_data", 1); ("meta-data", 2)] "meta_data" 2 tt tt eq_refl).
Defined.

End UtilFacts.
